(** * SpotifyDJ terminal dashboard: phrase clock and frame-diffing renderer

    A shallow embedding of [spotifydj.ts] (classes [PhraseCounter] and
    [TerminalRenderer], with the helper functions they call) and of the
    types of [types.ts], followed by the properties of the phrase clock,
    of the progress bar, of the scroll window and of [writeFrame], and by
    further properties of the same code and of [ts_sandbox.ts].

    Conventions of the embedding.

    - A JavaScript [number] is a rational ([Q]): a finite value, with
      exact arithmetic.  [NaN], the infinities, the sign of zero and the
      rounding of binary64 are outside the model.  Every division of the
      modelled code sits behind a guard that keeps its divisor away from
      zero (see [beatDurationMs_pos] and [percentOf]).
    - Numbers that the source only uses as row counts and row indices
      (terminal size, array lengths, the scroll offset) are integers.
    - [Date.now()] is the parameter [now]: the clock is read once per
      call and the properties below are stated for a given reading.
    - A string is a [string]; the escape character is [ESC]. *)

From Stdlib Require Import List String Ascii Bool Arith ZArith QArith Qround Qabs.
From Stdlib Require Import Lia Lqa DecimalString DecimalNat.
Import ListNotations.

Close Scope Q_scope.
Local Open Scope list_scope.
Local Open Scope string_scope.

(** In this file [++] joins strings and [+++] joins lists. *)
Infix "+++" := (@app _) (at level 60, right associativity).

(** ** JavaScript primitives used by the source *)

Module JS.

Local Open Scope Q_scope.

(** [a < b] on numbers. *)
Definition ltb (a b : Q) : bool := negb (Qle_bool b a).

(** [a <= b] on numbers. *)
Definition leb (a b : Q) : bool := Qle_bool a b.

(** [Math.floor]. *)
Definition floor (x : Q) : Z := Qfloor x.

(** Rounding toward zero, the integer quotient behind [%]. *)
Definition trunc (x : Q) : Z :=
  if Qle_bool 0 x then Qfloor x else Qceiling x.

(** [a % b]: the remainder has the sign of the dividend. *)
Definition rem (a b : Q) : Q := a - b * inject_Z (trunc (a / b)).

(** [Math.round]: to the nearest integer, halves toward plus infinity. *)
Definition round (x : Q) : Z := Qfloor (x + (1 # 2)).

(** [Math.min] and [Math.max] on numbers. *)
Definition min (a b : Q) : Q := if Qle_bool a b then a else b.
Definition max (a b : Q) : Q := if Qle_bool a b then b else a.

(** Truthiness of an optional number: [undefined] and [0] are falsy. *)
Definition truthy (x : option Q) : bool :=
  match x with
  | None => false
  | Some v => negb (Qeq_bool v 0)
  end.

(** [x !== c] for an optional number and a number. *)
Definition strict_neq (x : option Q) (c : Q) : bool :=
  match x with
  | None => true
  | Some v => negb (Qeq_bool v c)
  end.

(** [s.repeat(n)]. *)
Fixpoint repeat (s : string) (n : nat) : string :=
  match n with
  | O => EmptyString
  | S k => append s (repeat s k)
  end.

(** [arr.slice(start, end)] for integer arguments: a negative index
    counts from the end, both are clamped to the array. *)
Definition slice_index (len i : Z) : Z :=
  if (i <? 0)%Z then Z.max (len + i) 0 else Z.min i len.

Definition slice {A : Type} (l : list A) (start stop : Z) : list A :=
  let len := Z.of_nat (List.length l) in
  let k := slice_index len start in
  let final := slice_index len stop in
  firstn (Z.to_nat (Z.max (final - k) 0)) (skipn (Z.to_nat k) l).

(** [arr[i] ?? d] for an integer index. *)
Definition index {A : Type} (l : list A) (i : Z) (d : A) : A :=
  if (i <? 0)%Z then d else nth (Z.to_nat i) l d.

(** [arr.join('')]. *)
Definition join (l : list string) : string := String.concat EmptyString l.

(** A row or column count interpolated in a template string. *)
Definition show_nat (n : nat) : string := NilZero.string_of_uint (Nat.to_uint n).

(** An integer interpolated in a template string. *)
Definition show_Z (z : Z) : string := NilZero.string_of_int (Z.to_int z).

(** The result of [parseInt] interpolated in a template string:
    [None] is the failed parse, printed [NaN]. *)
Definition show_parsed (o : option Z) : string :=
  match o with
  | Some z => show_Z z
  | None => "NaN"
  end.

(** [s || d] on strings: the empty string is falsy. *)
Definition or_string (s d : string) : string :=
  if String.eqb s EmptyString then d else s.

(** [s || d] on an optional string. *)
Definition or_default (s : option string) (d : string) : string :=
  match s with
  | Some v => or_string v d
  | None => d
  end.

End JS.

(** ** types.ts *)

Inductive ShiftType : Type :=
| SMOOTH
| MOOD_SWITCH
| ENERGY_UP
| RHYTHMIC_BREAKER.

Record PhraseInfo : Type := mkPhraseInfo {
  beatsRemaining : Q;
  timeRemainingSeconds : Q;
  phraseCount : Q
}.

Record AudioFeatures : Type := mkAudioFeatures {
  tempo : Q;
  time_signature : option Q
}.

Module CurrentTrack.
Record t : Type := mk {
  track_name : string;
  artist : string;
  camelot_key : option string;
  progress_ms : Q;
  duration_ms : Q;
  timestamp : Q;
  isPlaying : bool;
  audio_features : AudioFeatures
}.
End CurrentTrack.

Module MatchedTrack.
Record t : Type := mk {
  track_name : string;
  artist : string;
  camelot_key : string;
  bpm : Q;
  shiftType : ShiftType
}.
End MatchedTrack.

(** [Object.values(ShiftType)]: the values in declaration order. *)
Definition ShiftType_values : list ShiftType :=
  [SMOOTH; MOOD_SWITCH; ENERGY_UP; RHYTHMIC_BREAKER].

(** The string value of a member of the enum. *)
Definition ShiftType_text (t : ShiftType) : string :=
  match t with
  | SMOOTH => "Smooth"
  | MOOD_SWITCH => "Mood Switch"
  | ENERGY_UP => "Energy Up"
  | RHYTHMIC_BREAKER => "Rhythmic/Dead-End Breaker"
  end.

Definition ShiftType_eqb (a b : ShiftType) : bool :=
  match a, b with
  | SMOOTH, SMOOTH
  | MOOD_SWITCH, MOOD_SWITCH
  | ENERGY_UP, ENERGY_UP
  | RHYTHMIC_BREAKER, RHYTHMIC_BREAKER => true
  | _, _ => false
  end.

(** The type of the selected tab, a member of the enum or the string
    ALL. *)
Inductive Category : Type :=
| ALL
| Only (t : ShiftType).

Definition Category_eqb (a b : Category) : bool :=
  match a, b with
  | ALL, ALL => true
  | Only x, Only y => ShiftType_eqb x y
  | _, _ => false
  end.

Definition Category_text (c : Category) : string :=
  match c with
  | ALL => "ALL"
  | Only t => ShiftType_text t
  end.

(** ** PhraseCounter *)

Module PhraseCounter.

Local Open Scope Q_scope.

(** The playback position [calculate] works with: [progressMs] plus
    the time elapsed since [timestamp] while playing.  [isPlaying] is
    optional in the source and defaults to [true]. *)
Definition currentProgressMs
    (now : Z) (progressMs timestamp : Q) (isPlaying : option bool) : Q :=
  let now := inject_Z now in
  let safeTimestamp := if JS.ltb 0 timestamp then timestamp else now in
  let isPlaying := match isPlaying with Some b => b | None => true end in
  let elapsed := if isPlaying then now - safeTimestamp else 0 in
  progressMs + elapsed.

Definition calculate
    (now : Z) (bpm progressMs timestamp : Q)
    (timeSignature : option Q) (isPlaying : option bool) : PhraseInfo :=
  if JS.leb bpm 0 then
    mkPhraseInfo 32 0 1
  else
    let currentProgressMs := currentProgressMs now progressMs timestamp isPlaying in
    let beatDurationMs := 60000 / bpm in
    let totalBeats := currentProgressMs / beatDurationMs in
    if JS.truthy timeSignature && JS.strict_neq timeSignature 4 then
      mkPhraseInfo 0 0 0
    else
      let beatsInPhrase := 32 in
      let positionInPhrase := JS.rem totalBeats beatsInPhrase in
      let beatsRemaining := beatsInPhrase - positionInPhrase in
      let timeRemainingSeconds := (beatsRemaining * beatDurationMs) / 1000 in
      let phraseCount := inject_Z (JS.floor positionInPhrase) + 1 in
      mkPhraseInfo beatsRemaining timeRemainingSeconds phraseCount.

End PhraseCounter.

(** ** Terminal control sequences *)

Definition ESC : string := String (ascii_of_nat 27) EmptyString.

Definition CLEAR_TO_END : string := ESC ++ "[0K".

(** The literal written by [writeFrame] to move the cursor home. *)
Definition CURSOR_HOME : string := ESC ++ "[H".

(** [process.stdout]: the size of the terminal, when it is known. *)
Record Stdout : Type := mkStdout {
  columns : option nat;
  rows : option nat
}.

(** [n || d] for a terminal dimension: [undefined] and [0] give [d]. *)
Definition dimension_or (n : option nat) (d : nat) : nat :=
  match n with
  | Some (S k) => S k
  | _ => d
  end.

(** ** Colours and constants of the renderer *)

Module colors.
Definition reset : string := ESC ++ "[0m".
Definition bright : string := ESC ++ "[1m".
Definition dim : string := ESC ++ "[2m".
Definition red : string := ESC ++ "[31m".
Definition green : string := ESC ++ "[32m".
Definition yellow : string := ESC ++ "[33m".
Definition blue : string := ESC ++ "[34m".
Definition magenta : string := ESC ++ "[35m".
Definition cyan : string := ESC ++ "[36m".
Definition white : string := ESC ++ "[37m".
Definition bgBlue : string := ESC ++ "[44m".
Definition bgBlack : string := ESC ++ "[40m".
Definition fgBlack : string := ESC ++ "[30m".
Definition spotifyGreen : string := ESC ++ "[38;2;29;185;84m".
Definition lightGreen : string := ESC ++ "[92m".
Definition zshGreen : string := ESC ++ "[32m".
Definition zshBlue : string := ESC ++ "[34m".
Definition zshYellow : string := ESC ++ "[33m".
End colors.

Definition FRAME_BASE_COLOR : string := colors.bright ++ colors.cyan.
Definition FRAME_RIPPLE_COLOR : string := colors.spotifyGreen ++ colors.bright.
Definition RIPPLE_GLYPH : string := "▒".
Definition RIPPLE_BAND : Z := 5.
Definition RIPPLE_STEP_MS : Z := 90.
Definition BASE_BAR_BG : string := ESC ++ "[48;2;30;30;30m".
Definition SCAN_GRADIENT : list Q := [3 # 10; 6 # 10; 1; 6 # 10; 3 # 10]%Q.

(** ** What the renderer takes from outside the repository

    The wall clock, the packages [string-width] and [strip-ansi], the
    colour table of [./camelotColors], the version of [package.json],
    the process environment read by the status bar, the printing of a
    number ([toFixed(1)] and the interpolation in a template string),
    and the string primitives of the language whose results depend on
    the encoding of the text ([length] and the slicing methods count
    UTF-16 units). *)
Record Platform : Type := mkPlatform {
  now : Z;
  stringWidth : string -> Z;
  stripAnsi : string -> string;
  getCamelotColor : string -> string;
  version : string;
  toFixed1 : Q -> string;
  numberToString : Q -> string;
  strLength : string -> Z;
  substring : string -> Z -> Z -> string;
  strSlice : string -> Z -> Z -> string;
  trim : string -> string;
  parseInt16 : string -> option Z;
  username : string;
  hostname : string;
  cwd : string
}.

Definition hexToAnsi (env : Platform) (hex : string) : string :=
  let r := parseInt16 env (strSlice env hex 1 3) in
  let g := parseInt16 env (strSlice env hex 3 5) in
  let b := parseInt16 env (strSlice env hex 5 7) in
  ESC ++ "[38;2;" ++ JS.show_parsed r ++ ";" ++ JS.show_parsed g ++ ";"
      ++ JS.show_parsed b ++ "m".

Definition VERSION (env : Platform) : string := "v" ++ version env.

(** ** Helpers of the layout *)

Definition center (env : Platform) (text : string) (width : Z) : string :=
  let visibleWidth := stringWidth env (stripAnsi env text) in
  if (width <=? visibleWidth)%Z then text
  else
    let padLeft := ((width - visibleWidth) / 2)%Z in
    JS.repeat " " (Z.to_nat padLeft) ++ text
      ++ JS.repeat " " (Z.to_nat (width - visibleWidth - padLeft)).

Record RippleState : Type := mkRipple {
  active : bool;
  band : Z;
  cycle : Z;
  phase : Z
}.

Definition buildRippleState (env : Platform)
    (frameWidth frameHeight : Z) (isActive : bool) : RippleState :=
  let virtualHeight := Z.max 6 (Z.min frameHeight 60) in
  let cycle := (frameWidth + virtualHeight)%Z in
  let phase := Z.rem (now env / RIPPLE_STEP_MS) cycle in
  mkRipple isActive RIPPLE_BAND cycle phase.

Definition isInRipple (row col : Z) (ripple : RippleState) : bool :=
  if negb (active ripple) then false
  else
    let position := Z.rem (row + col) (cycle ripple) in
    let windowEnd := Z.rem (phase ripple + band ripple) (cycle ripple) in
    if (phase ripple <=? windowEnd)%Z then
      (phase ripple <=? position)%Z && (position <=? windowEnd)%Z
    else
      (phase ripple <=? position)%Z || (position <=? windowEnd)%Z.

Definition colorizeFrameChar (ch : string) (row col : Z)
    (ripple : RippleState) (useRippleGlyph : bool) : string :=
  let active := isInRipple row col ripple in
  let glyph := if active && useRippleGlyph then RIPPLE_GLYPH else ch in
  let color := if active then FRAME_RIPPLE_COLOR else FRAME_BASE_COLOR in
  color ++ glyph ++ colors.reset.

Definition buildRippleBorderLine (width rowIndex : Z)
    (ripple : RippleState) (isBottom : bool) : string :=
  let leftCorner := if isBottom then "╚" else "╔" in
  let rightCorner := if isBottom then "╝" else "╗" in
  let chars :=
    map (fun c : nat =>
           let col := Z.of_nat c in
           if (col =? 0)%Z then
             colorizeFrameChar leftCorner rowIndex col ripple false
           else if (col =? width + 1)%Z then
             colorizeFrameChar rightCorner rowIndex col ripple false
           else
             colorizeFrameChar "═" rowIndex col ripple true)
        (seq 0 (Z.to_nat (width + 2))) in
  JS.join chars.

Definition buildRippleTitleLine (env : Platform) (title : string)
    (width rowIndex : Z) (ripple : RippleState) : string :=
  let centeredTitle := center env title width in
  let leftBorder := colorizeFrameChar "║" rowIndex 0 ripple false in
  let rightBorder := colorizeFrameChar "║" rowIndex (width + 1) ripple false in
  leftBorder ++ FRAME_BASE_COLOR ++ centeredTitle ++ colors.reset
    ++ rightBorder ++ colors.reset.

Module RgbColor.
Record t : Type := mk {
  r : Z;
  g : Z;
  b : Z
}.
End RgbColor.

Record ScanSettings : Type := mkScan {
  speedMs : Z;
  pulseWidth : Z;
  baseColor : RgbColor.t;
  freeze : bool;
  warningFg : option string
}.

Definition getScanSettings (beatsRemaining : Q) : ScanSettings :=
  if JS.leb beatsRemaining 8 then
    mkScan 0 (Z.of_nat (List.length SCAN_GRADIENT)) (RgbColor.mk 210 90 50) true
           (Some colors.red)
  else if JS.leb beatsRemaining 16 then
    mkScan 50 (Z.of_nat (List.length SCAN_GRADIENT)) (RgbColor.mk 210 160 60) false None
  else if JS.leb beatsRemaining 32 then
    mkScan 100 (Z.of_nat (List.length SCAN_GRADIENT)) (RgbColor.mk 70 160 180) false None
  else
    mkScan 250 (Z.of_nat (List.length SCAN_GRADIENT)) (RgbColor.mk 40 110 130) false None.

Definition makeBg (color : RgbColor.t) (factor : Q) : string :=
  let clamp := fun v : Q => Z.max 0 (Z.min 255 (JS.round v)) in
  let r := clamp (inject_Z (RgbColor.r color) * factor)%Q in
  let g := clamp (inject_Z (RgbColor.g color) * factor)%Q in
  let b := clamp (inject_Z (RgbColor.b color) * factor)%Q in
  ESC ++ "[48;2;" ++ JS.show_Z r ++ ";" ++ JS.show_Z g ++ ";" ++ JS.show_Z b ++ "m".

Definition getPulseCenter (env : Platform) (length : Z) (scan : ScanSettings) : Z :=
  if freeze scan || (speedMs scan <=? 0)%Z then (length / 2)%Z
  else Z.rem (now env / speedMs scan) length.

Definition wrapDistance (a b length : Z) : Z :=
  let direct := Z.abs (a - b) in
  Z.min direct (length - direct).

Definition buildScanlineBar (env : Platform) (beatsRemaining : Q)
    : string * string :=
  let barLength := 32%Z in
  let filled := Z.max 0 (Z.min barLength (JS.floor beatsRemaining)) in
  let chars :=
    map (fun i : nat => if (Z.of_nat i <? filled)%Z then "█" else "░")
        (seq 0 (Z.to_nat barLength)) in
  let scan := getScanSettings beatsRemaining in
  let center := getPulseCenter env barLength scan in
  let colored :=
    map (fun p : nat * string =>
           let idx := Z.of_nat (fst p) in
           let ch := snd p in
           let dist := wrapDistance idx center barLength in
           if (pulseWidth scan / 2 <? dist)%Z then
             BASE_BAR_BG ++ colors.dim ++ ch ++ colors.reset
           else
             let gradientIdx :=
               Z.min (dist + pulseWidth scan / 2)
                     (Z.of_nat (List.length SCAN_GRADIENT) - 1) in
             let factor := JS.index SCAN_GRADIENT gradientIdx (3 # 10)%Q in
             let bg := makeBg (baseColor scan) factor in
             let textColor := if freeze scan then colors.bright else colors.reset in
             bg ++ textColor ++ ch ++ colors.reset)
        (combine (seq 0 (List.length chars)) chars) in
  let labelColor := if freeze scan then colors.red else colors.white in
  (JS.join colored, labelColor).

Definition buildHelpPanel (width : Z) : list string :=
  let separator := JS.repeat "─" (Z.to_nat width) in
  [ colors.dim ++ separator ++ colors.reset;
    colors.bright ++ colors.cyan ++ "HELP" ++ colors.reset;
    colors.dim ++ separator ++ colors.reset;
    colors.bright ++ "h" ++ colors.reset ++ ": toggle help   "
      ++ colors.bright ++ "tab" ++ colors.reset ++ ": categories   "
      ++ colors.bright ++ "w/s" ++ colors.reset ++ ": scroll";
    colors.bright ++ "r" ++ colors.reset ++ ": refresh library   "
      ++ colors.bright ++ "Ctrl+C" ++ colors.reset ++ ": exit";
    colors.dim
      ++ "Scanline glow speeds up near the mix window and locks red inside the final 8 beats."
      ++ colors.reset ].

Definition buildStatusBar (env : Platform) (width : Z) (showWarning : bool)
    (ripple : RippleState) (rowIndex : Z) : list string :=
  let statusWidth := Z.min width 120 in
  let effectiveWidth := Z.max 62 (statusWidth - 2) in
  let separator := buildRippleBorderLine effectiveWidth rowIndex ripple true in
  if showWarning then
    [separator; " Press Ctrl-C again to exit "]
  else
    let userHost := username env ++ "@" ++ hostname env in
    let branch := "<main>" in
    let controls := "w/s: scroll | tab: category | r: refresh | h: help" in
    [ separator;
      colors.zshGreen ++ userHost ++ colors.reset ++ " | " ++ colors.white
        ++ controls ++ colors.reset;
      colors.zshBlue ++ cwd env ++ "  " ++ colors.zshYellow ++ branch
        ++ colors.reset ].

(** ** TerminalRenderer

    The object is its only field, [previousFrame]; a method takes the
    renderer and returns the renderer it leaves behind, together with
    what it handed to [process.stdout.write]. *)

(** What one call of [writeFrame] hands to the output stream: [buffer]
    is the array of pieces built by the call, [written] the argument of
    [process.stdout.write] ([None] when the call does not write). *)
Record FrameOutput : Type := mkOutput {
  buffer : list string;
  written : option string
}.

(** Bytes received by the output stream. *)
Definition bytesWritten (o : FrameOutput) : nat :=
  match written o with
  | None => 0
  | Some s => String.length s
  end.

(** The value returned by [renderTrainBoard]. *)
Record ScrollResult : Type := mkScroll {
  clampedOffset : Z;
  maxScroll : Z
}.

Module TerminalRenderer.

Record t : Type := mk {
  previousFrame : list string
}.

(** [new TerminalRenderer()]. *)
Definition create : t := mk [].

Definition resetFrameCache (self : t) : t := mk [].

(** [process.stdout.rows || 24]. *)
Definition terminalHeight (tty : Stdout) : nat := dimension_or (rows tty) 24.

(** [process.stdout.columns || 80]. *)
Definition terminalWidth (tty : Stdout) : nat := dimension_or (columns tty) 80.

(** The piece pushed for row [i]: cursor to row [i + 1], column 1,
    the new text, clear to the end of the line. *)
Definition rowWrite (i : nat) (next : string) : string :=
  ESC ++ "[" ++ JS.show_nat (i + 1) ++ ";1H" ++ next ++ CLEAR_TO_END.

(** The loop [for (let i = ...; i < maxRows; i++)] of [writeFrame],
    with [n] rounds left to run. *)
Fixpoint diffLoop (clippedLines previous : list string)
    (i n : nat) (buffer : list string) : list string :=
  match n with
  | O => buffer
  | S k =>
      let next := nth i clippedLines EmptyString in
      let prev := nth i previous EmptyString in
      let buffer :=
        if negb (String.eqb next prev)
        then buffer +++ [rowWrite i next]
        else buffer in
      diffLoop clippedLines previous (S i) k buffer
  end.

Definition writeFrame (tty : Stdout) (lines : list string) (self : t)
    : t * FrameOutput :=
  let terminalHeight := terminalHeight tty in
  let clippedLines := JS.slice lines 0 (Z.of_nat terminalHeight) in
  let maxRows :=
    Nat.max (List.length clippedLines) (List.length (previousFrame self)) in
  let buffer := [CURSOR_HOME] in
  let buffer := diffLoop clippedLines (previousFrame self) 0 maxRows buffer in
  let written :=
    if (0 <? List.length buffer)%nat then Some (JS.join buffer) else None in
  (mk clippedLines, mkOutput buffer written).

Definition renderNarrowWarning (tty : Stdout) (width : Z) (self : t)
    : t * FrameOutput :=
  let self := resetFrameCache self in
  let lines :=
    [ "";
      colors.yellow ++ "⚠️  Terminal too narrow!" ++ colors.reset;
      "Minimum width: 80 characters";
      "Current width: " ++ JS.show_Z width ++ " characters";
      "";
      "Please resize your terminal window." ] in
  writeFrame tty lines self.

(** *** The blocks of [renderTrainBoard], in the order of the source *)

(** [effectiveWidth], from [terminalWidth]. *)
Definition effectiveWidth (terminalWidth : Z) : Z :=
  let uiWidth := Z.min terminalWidth 120 in
  Z.max 62 (uiWidth - 2).

(** The header box, the version line and the blank line under it.  The
    row index given to the ripple is the number of rows pushed so far. *)
Definition headerLines (env : Platform) (effectiveWidth : Z)
    (ripple : RippleState) : list string :=
  let lines : list string := [] in
  let title :=
    colors.spotifyGreen ++ "ᯤ SpotifyDJ" ++ colors.reset
      ++ " — Real-Time DJ Assistant" in
  let topLine :=
    buildRippleBorderLine effectiveWidth (Z.of_nat (List.length lines)) ripple false in
  let lines := lines +++ [topLine] in
  let middleLine :=
    buildRippleTitleLine env title effectiveWidth (Z.of_nat (List.length lines)) ripple in
  let lines := lines +++ [middleLine] in
  let bottomLine :=
    buildRippleBorderLine effectiveWidth (Z.of_nat (List.length lines)) ripple true in
  let lines := lines +++ [bottomLine] in
  lines +++ [colors.dim ++ "Version: " ++ VERSION env ++ colors.reset; ""].

Definition noticeLines (notices : list string) : list string :=
  if (0 <? List.length notices)%nat then
    map (fun note => colors.yellow ++ "⚠️  " ++ note ++ colors.reset) notices
      +++ [""]
  else [].

(** The playback position shown by the progress bar. *)
Definition currentMs (now : Z) (currentTrack : CurrentTrack.t) : Q :=
  let elapsed := (inject_Z now - CurrentTrack.timestamp currentTrack)%Q in
  let baseProgressMs := CurrentTrack.progress_ms currentTrack in
  let additionalProgressMs :=
    if CurrentTrack.isPlaying currentTrack then elapsed else 0%Q in
  JS.min (baseProgressMs + additionalProgressMs)%Q
         (CurrentTrack.duration_ms currentTrack).

Definition barWidth (effectiveWidth : Z) : Z :=
  Z.max 40 (Z.min 60 (effectiveWidth / 2)).

Definition percentOf (currentMs duration_ms : Q) : Q :=
  if JS.leb duration_ms 0 then 0%Q
  else JS.min 1 (JS.max 0 (currentMs / duration_ms)%Q).

Definition filledLen (barWidth : Z) (percent : Q) : Z :=
  if JS.leb 1 percent then barWidth
  else if JS.leb percent 0 then 0%Z
  else
    let filledLen := JS.round (inject_Z barWidth * percent)%Q in
    Z.min filledLen barWidth.

(** The text of the progress bar. *)
Definition progressBar (barWidth : Z) (percent : Q) : string :=
  let filledLen := filledLen barWidth percent in
  let emptyLen := (barWidth - filledLen)%Z in
  JS.repeat "▰" (Z.to_nat filledLen) ++ JS.repeat "▱" (Z.to_nat emptyLen).

(** The row with the name of the track and of the artist. *)
Definition trackInfoLine (env : Platform) (effectiveWidth : Z)
    (currentTrack : CurrentTrack.t) : string :=
  let isFlashOn :=
    CurrentTrack.isPlaying currentTrack
    && (Z.rem (now env / 500) 2 =? 0)%Z in
  let recordIndicator :=
    if isFlashOn then colors.spotifyGreen ++ "⏺" ++ colors.reset
    else colors.dim ++ "⏺" ++ colors.reset in
  let trackName :=
    colors.bright ++ CurrentTrack.track_name currentTrack ++ colors.reset in
  let artistName :=
    colors.bright ++ CurrentTrack.artist currentTrack ++ colors.reset in
  let rawInfo :=
    CurrentTrack.track_name currentTrack ++ " — "
      ++ CurrentTrack.artist currentTrack in
  let maxInfoWidth := (effectiveWidth - 10)%Z in
  let displayInfo :=
    if (maxInfoWidth <? strLength env rawInfo)%Z then
      let truncatedRaw := substring env rawInfo 0 (maxInfoWidth - 1) ++ "…" in
      colors.bright ++ truncatedRaw ++ colors.reset
    else trackName ++ " — " ++ artistName in
  "💿  " ++ displayInfo ++ " " ++ recordIndicator.

(** The row with the tempo and the key. *)
Definition detailsLine (env : Platform) (currentTrack : CurrentTrack.t) : string :=
  let bpmVal :=
    JS.or_string
      (toFixed1 env (tempo (CurrentTrack.audio_features currentTrack))) "0.0" in
  let camelVal := JS.or_default (CurrentTrack.camelot_key currentTrack) "-" in
  let coloredCamel :=
    match CurrentTrack.camelot_key currentTrack with
    | Some key =>
        if String.eqb key EmptyString then camelVal
        else
          let hex := getCamelotColor env key in
          let ansiColor := hexToAnsi env hex in
          ansiColor ++ colors.bright ++ camelVal ++ colors.reset
    | None => camelVal
    end in
  let detailsStr :=
    colors.bright ++ "BPM:" ++ colors.reset ++ " " ++ bpmVal ++ "  "
      ++ colors.dim ++ "•" ++ colors.reset ++ "  "
      ++ colors.bright ++ "Camelot:" ++ colors.reset ++ " " ++ coloredCamel in
  "    " ++ detailsStr.

(** The rows of the phrase countdown, or of the notice that replaces it. *)
Definition phraseLines (env : Platform) (currentTrack : CurrentTrack.t)
    (phraseInfo : option PhraseInfo) : list string :=
  match phraseInfo with
  | None => []
  | Some phraseInfo =>
      if JS.ltb 0 (beatsRemaining phraseInfo) then
        let '(bar, labelColor) := buildScanlineBar env (beatsRemaining phraseInfo) in
        [ colors.bright ++ "⏱  Phrase Matching" ++ colors.reset;
          bar;
          labelColor ++ "Beats Rem: " ++ toFixed1 env (beatsRemaining phraseInfo)
            ++ " | Time: " ++ toFixed1 env (timeRemainingSeconds phraseInfo)
            ++ "s" ++ colors.reset;
          "" ]
      else
        let ts := time_signature (CurrentTrack.audio_features currentTrack) in
        if JS.truthy ts && JS.strict_neq ts 4 then
          [ colors.yellow ++ "⚠️  Non-4/4 time signature detected ("
              ++ match ts with Some v => numberToString env v | None => "" end
              ++ "/4)" ++ colors.reset;
            colors.dim ++ "Phrase counter disabled for non-4/4 tracks" ++ colors.reset;
            "" ]
        else []
  end.

(** The rows pushed for the current track, or the placeholder. *)
Definition trackLines (env : Platform) (effectiveWidth : Z)
    (currentTrack : option CurrentTrack.t) (phraseInfo : option PhraseInfo)
    : list string :=
  match currentTrack with
  | None => [colors.yellow ++ "Waiting for playback..." ++ colors.reset]
  | Some currentTrack =>
      let currentMs := currentMs (now env) currentTrack in
      let barWidth := barWidth effectiveWidth in
      let percent := percentOf currentMs (CurrentTrack.duration_ms currentTrack) in
      let bar := progressBar barWidth percent in
      [ trackInfoLine env effectiveWidth currentTrack;
        detailsLine env currentTrack; "";
        "  " ++ bar; "" ]
        +++ phraseLines env currentTrack phraseInfo
  end.

(** The title of the list, the tab strip and the rule under it. *)
Definition tabsLines (env : Platform) (effectiveWidth : Z)
    (currentTrack : option CurrentTrack.t) (selectedCategory : Category)
    : list string :=
  let categories := ALL :: map Only ShiftType_values in
  let tabs :=
    String.concat " "
      (map (fun cat =>
              if Category_eqb cat selectedCategory then
                colors.bgBlue ++ colors.white ++ " " ++ Category_text cat ++ " "
                  ++ colors.reset
              else colors.dim ++ " " ++ Category_text cat ++ " " ++ colors.reset)
           categories) in
  let currentBpm :=
    match currentTrack with
    | Some currentTrack =>
        JS.or_string
          (toFixed1 env (tempo (CurrentTrack.audio_features currentTrack))) "0.0"
    | None => "0.0"
    end in
  [ colors.bright ++ colors.spotifyGreen ++ "⚡ Recommendations" ++ colors.reset
      ++ " " ++ colors.dim ++ "(Current: " ++ currentBpm ++ " BPM)" ++ colors.reset;
    tabs;
    colors.dim ++ JS.repeat "─" (Z.to_nat effectiveWidth) ++ colors.reset ].

(** Everything pushed before the list of recommendations. *)
Definition topLines (env : Platform) (effectiveWidth : Z) (ripple : RippleState)
    (currentTrack : option CurrentTrack.t) (phraseInfo : option PhraseInfo)
    (selectedCategory : Category) (notices : list string) : list string :=
  headerLines env effectiveWidth ripple
    +++ noticeLines notices
    +++ trackLines env effectiveWidth currentTrack phraseInfo
    +++ tabsLines env effectiveWidth currentTrack selectedCategory.

Definition statusLineCount (showExitWarning : bool) : Z :=
  if showExitWarning then 2 else 3.

Definition helpLines (showHelp : bool) (effectiveWidth : Z) : list string :=
  if showHelp then buildHelpPanel effectiveWidth else [].

Definition logLines (effectiveWidth : Z) (logs : list string) : list string :=
  if (0 <? List.length logs)%nat then
    let separator := JS.repeat "─" (Z.to_nat effectiveWidth) in
    [ ""; colors.dim ++ separator ++ colors.reset;
      colors.bright ++ colors.red ++ "DEBUG LOGS:" ++ colors.reset ]
      +++ map (fun log => colors.dim ++ log ++ colors.reset) logs
  else [].

(** Rows kept for the status bar, the help panel and the debug logs. *)
Definition reservedLines (showExitWarning showHelp : bool)
    (effectiveWidth : Z) (logs : list string) : Z :=
  let reservedLines := (statusLineCount showExitWarning + 1)%Z in
  let reservedLines :=
    if showHelp then
      (reservedLines + Z.of_nat (List.length (helpLines showHelp effectiveWidth)) + 1)%Z
    else reservedLines in
  if (0 <? List.length logs)%nat then
    (reservedLines + Z.of_nat (List.length (logLines effectiveWidth logs)))%Z
  else reservedLines.

(** Rows left for the list of recommendations. *)
Definition availableForRecs (terminalHeight usedLinesTop reservedLines : Z) : Z :=
  Z.max 0 (terminalHeight - 1 - usedLinesTop - reservedLines).

(** The loop that shortens the name of a track until it fits.  A round
    drops the last unit of [truncated], so the loop ends within as many
    rounds as [trackInfo] has units; [n] is that bound. *)
Fixpoint truncateLoop (env : Platform) (availableForTrackInfo : Z)
    (n : nat) (truncated : string) : string :=
  match n with
  | O => truncated
  | S k =>
      if (availableForTrackInfo <? stringWidth env truncated)%Z
         && (0 <? strLength env truncated)%Z
      then truncateLoop env availableForTrackInfo k (strSlice env truncated 0 (-1))
      else truncated
  end.

(** The row of one recommended track. *)
Definition recommendationRow (env : Platform) (effectiveWidth : Z)
    (currentTrack : option CurrentTrack.t) (track : MatchedTrack.t) : string :=
  let hex := getCamelotColor env (MatchedTrack.camelot_key track) in
  let ansiColor := hexToAnsi env hex in
  let coloredKey :=
    ansiColor ++ "[" ++ MatchedTrack.camelot_key track ++ "]" ++ colors.reset in
  let bpmDiffStr :=
    match currentTrack with
    | Some currentTrack =>
        let tempo := tempo (CurrentTrack.audio_features currentTrack) in
        if negb (Qeq_bool tempo 0) then
          let bpmDiff := ((MatchedTrack.bpm track - tempo) / tempo * 100)%Q in
          let bpmDiffStr :=
            if JS.leb 0 bpmDiff then "+" ++ toFixed1 env bpmDiff ++ "%"
            else toFixed1 env bpmDiff ++ "%" in
          let bpmColor := if JS.ltb 5 (Qabs bpmDiff) then colors.yellow else colors.dim in
          " " ++ bpmColor ++ bpmDiffStr ++ colors.reset
        else ""
    | None => ""
    end in
  let fullLine :=
    "  " ++ coloredKey ++ " " ++ MatchedTrack.track_name track ++ " - "
      ++ MatchedTrack.artist track ++ " (" ++ toFixed1 env (MatchedTrack.bpm track)
      ++ " BPM)" ++ bpmDiffStr in
  let visualWidth := stringWidth env (stripAnsi env fullLine) in
  if (effectiveWidth <? visualWidth)%Z then
    let prefix := "  " ++ coloredKey ++ " " in
    let suffix := " (" ++ toFixed1 env (MatchedTrack.bpm track) ++ " BPM)" ++ bpmDiffStr in
    let prefixWidth := stringWidth env (stripAnsi env prefix) in
    let suffixWidth := stringWidth env (stripAnsi env suffix) in
    let availableForTrackInfo := (effectiveWidth - prefixWidth - suffixWidth - 1)%Z in
    if (10 <? availableForTrackInfo)%Z then
      let trackInfo :=
        MatchedTrack.track_name track ++ " - " ++ MatchedTrack.artist track in
      let truncated :=
        truncateLoop env availableForTrackInfo
          (Z.to_nat (strLength env trackInfo)) trackInfo in
      let truncated := trim env truncated ++ "…" in
      prefix ++ truncated ++ suffix
    else substring env fullLine 0 (effectiveWidth - 1) ++ "…"
  else fullLine.

(** The object [grouped], read at the key [type]: [None] when the key
    was never set. *)
Definition grouped (selectedCategory : Category)
    (filteredRecs : list MatchedTrack.t) (type : ShiftType)
    : option (list MatchedTrack.t) :=
  match selectedCategory with
  | ALL =>
      let tracks :=
        filter (fun track => ShiftType_eqb (MatchedTrack.shiftType track) type)
               filteredRecs in
      if (0 <? List.length tracks)%nat then Some tracks else None
  | Only c => if ShiftType_eqb c type then Some filteredRecs else None
  end.

Definition typeColor (type : ShiftType) : string :=
  match type with
  | SMOOTH => colors.spotifyGreen
  | ENERGY_UP => colors.yellow
  | MOOD_SWITCH => colors.magenta
  | RHYTHMIC_BREAKER => colors.red
  end.

(** The rows of the list of recommendations, before scrolling. *)
Definition displayLines (env : Platform) (effectiveWidth : Z)
    (currentTrack : option CurrentTrack.t) (recommendations : list MatchedTrack.t)
    (debugMessage : option string) (selectedCategory : Category)
    (totalTracksInLibrary : Z) : list string :=
  if (List.length recommendations =? 0)%nat then
    (if (totalTracksInLibrary =? 0)%Z then
       [ colors.dim ++ "Library is empty." ++ colors.reset;
         colors.dim
           ++ "Tip: export your liked songs as Liked_Songs.csv (Exportify), drop it in this project, and run `npm run refresh:library` or press r."
           ++ colors.reset ]
     else
       [ colors.dim ++ "No harmonic matches found in library." ++ colors.reset ])
      +++ match debugMessage with
          | Some debugMessage =>
              if String.eqb debugMessage EmptyString then []
              else [colors.red ++ "DEBUG: " ++ debugMessage ++ colors.reset]
          | None => []
          end
  else
    let filteredRecs :=
      match selectedCategory with
      | ALL => recommendations
      | Only c =>
          filter (fun r => ShiftType_eqb (MatchedTrack.shiftType r) c) recommendations
      end in
    let typesToRender :=
      match selectedCategory with
      | ALL => ShiftType_values
      | Only c => [c]
      end in
    flat_map
      (fun type =>
         match grouped selectedCategory filteredRecs type with
         | Some tracks =>
             if (0 <? List.length tracks)%nat then
               let typeColor := typeColor type in
               (match selectedCategory with
                | ALL => typeColor ++ "▼ " ++ ShiftType_text type ++ colors.reset
                | Only _ =>
                    colors.bright ++ typeColor ++ ShiftType_text type ++ colors.reset
                end)
                 :: map (recommendationRow env effectiveWidth currentTrack) tracks
             else []
         | None => []
         end)
      typesToRender.

(** The block that makes [scrollOffset] valid: the offset and
    [maxScroll] after it. *)
Definition clampScroll (scrollOffset totalLines maxLines : Z) : Z * Z :=
  let scrollOffset := if (scrollOffset <? 0)%Z then 0%Z else scrollOffset in
  let maxScroll := Z.max 0 (totalLines - maxLines) in
  let scrollOffset :=
    if (maxScroll <? scrollOffset)%Z then maxScroll else scrollOffset in
  (scrollOffset, maxScroll).

(** The loop that pushes blank rows while [lines] is shorter than
    [target]. *)
Definition padLines (lines : list string) (target : Z) : list string :=
  lines +++ List.repeat EmptyString (Z.to_nat (target - Z.of_nat (List.length lines))).

(** The end of the frame, pushed after the list onto the [lines] built
    so far: the debug logs, the help panel, blank rows down to the
    status bar, the status bar. *)
Definition closingLines (env : Platform) (terminalWidth terminalHeight : Z)
    (ripple : RippleState) (showExitWarning showHelp : bool)
    (helpLines logLines lines : list string) : list string :=
  let statusLineCount := statusLineCount showExitWarning in
  let lines := if (0 <? List.length logLines)%nat then lines +++ logLines else lines in
  let lines := if showHelp then (lines +++ [""]) +++ helpLines else lines in
  let statusStartRow :=
    Z.max (terminalHeight - statusLineCount) (Z.of_nat (List.length lines)) in
  let statusLines :=
    buildStatusBar env terminalWidth showExitWarning ripple statusStartRow in
  let lines := padLines lines (terminalHeight - statusLineCount) in
  lines +++ statusLines.

(** The body of [renderTrainBoard] up to the call of [writeFrame]: the
    rows handed to [writeFrame] and the value returned.  The optional
    parameters of the source are all given. *)
Definition layoutTrainBoard (env : Platform) (tty : Stdout)
    (currentTrack : option CurrentTrack.t)
    (recommendations : list MatchedTrack.t)
    (phraseInfo : option PhraseInfo)
    (showExitWarning : bool)
    (debugMessage : option string)
    (logs : list string)
    (selectedCategory : Category)
    (scrollOffset : Z)
    (showHelp : bool)
    (notices : list string)
    (totalTracksInLibrary : Z) : list string * ScrollResult :=
  let terminalWidth := Z.of_nat (terminalWidth tty) in
  let terminalHeight := Z.of_nat (terminalHeight tty) in
  let effectiveWidth := effectiveWidth terminalWidth in
  let frameWidth := (effectiveWidth + 2)%Z in
  let ripple :=
    buildRippleState env frameWidth terminalHeight
      (match currentTrack with Some _ => true | None => false end) in
  let lines :=
    topLines env effectiveWidth ripple currentTrack phraseInfo selectedCategory
      notices in
  let helpLines := helpLines showHelp effectiveWidth in
  let logLines := logLines effectiveWidth logs in
  let reservedLines := reservedLines showExitWarning showHelp effectiveWidth logs in
  let usedLinesTop := Z.of_nat (List.length lines) in
  let availableForRecs := availableForRecs terminalHeight usedLinesTop reservedLines in
  let displayLines :=
    displayLines env effectiveWidth currentTrack recommendations debugMessage
      selectedCategory totalTracksInLibrary in
  let maxLines := availableForRecs in
  let totalLines := Z.of_nat (List.length displayLines) in
  let '(scrollOffset, maxScroll) := clampScroll scrollOffset totalLines maxLines in
  let visibleLines := JS.slice displayLines scrollOffset (scrollOffset + maxLines) in
  let lines := lines +++ visibleLines in
  let lines :=
    if (maxLines <? totalLines)%Z then lines
    else if (List.length visibleLines =? 0)%nat && (0 <? totalLines)%Z then
      lines +++ [colors.dim ++ " (Terminal too small to show tracks) " ++ colors.reset]
    else lines in
  let lines :=
    closingLines env terminalWidth terminalHeight ripple showExitWarning
      showHelp helpLines logLines lines in
  (lines, mkScroll scrollOffset (Z.max 0 (totalLines - maxLines))).

Definition renderTrainBoard (env : Platform) (tty : Stdout)
    (currentTrack : option CurrentTrack.t)
    (recommendations : list MatchedTrack.t)
    (phraseInfo : option PhraseInfo)
    (showExitWarning : bool)
    (debugMessage : option string)
    (logs : list string)
    (selectedCategory : Category)
    (scrollOffset : Z)
    (showHelp : bool)
    (notices : list string)
    (totalTracksInLibrary : Z)
    (self : t) : (t * FrameOutput) * ScrollResult :=
  let '(lines, result) :=
    layoutTrainBoard env tty currentTrack recommendations phraseInfo
      showExitWarning debugMessage logs selectedCategory scrollOffset showHelp
      notices totalTracksInLibrary in
  (writeFrame tty lines self, result).

End TerminalRenderer.

(** ** A sample session, with the data of the demo of [ts_sandbox.ts] *)

Module Sample.

(** A stand-in for the outside of the repository: text counted and cut
    by characters of [string], no escape sequence removed, one colour
    for every key, numbers printed by their integer part. *)
Definition env (now : Z) : Platform :=
  mkPlatform now
    (fun s => Z.of_nat (String.length s))
    (fun s => s)
    (fun _ => "#1DB954")
    "1.0.0"
    (fun q => JS.show_Z (Qfloor q) ++ ".0")
    (fun q => JS.show_Z (Qfloor q))
    (fun s => Z.of_nat (String.length s))
    (fun s a b => String.substring (Z.to_nat a) (Z.to_nat (b - a)) s)
    (fun s a b =>
       let len := Z.of_nat (String.length s) in
       let a := JS.slice_index len a in
       let b := JS.slice_index len b in
       String.substring (Z.to_nat a) (Z.to_nat (b - a)) s)
    (fun s => s)
    (fun _ => None)
    "dj" "booth" "~/spotifydj".

Definition track : CurrentTrack.t :=
  CurrentTrack.mk "Asibe Happy" "Kabza De Small, DJ Maphorisa, Ami Faku"
    (Some "9A") 142000 325000 1000000 true (mkAudioFeatures 113 (Some 4%Q)).

Definition recommendations : list MatchedTrack.t :=
  [ MatchedTrack.mk "MISSION" "SoFaygo" "10A" (1569 # 10) ENERGY_UP;
    MatchedTrack.mk "2AM" "SZA" "8A" 84 MOOD_SWITCH;
    MatchedTrack.mk "Designer Thangs" "tana" "10A" 180 ENERGY_UP;
    MatchedTrack.mk "Tralala (feat. JayO)" "Aya Nakamura;JayO" "9A" 92 SMOOTH;
    MatchedTrack.mk "BACK IN THE MIX" "SoFaygo" "9A" 134 ENERGY_UP;
    MatchedTrack.mk "shiloh type beat" "Jessy Blakemore" "8A" (1216 # 10) SMOOTH;
    MatchedTrack.mk "I Want Her Too" "Artie J" "10A" 90 MOOD_SWITCH;
    MatchedTrack.mk "Bad News Benji" "Benji Blue Bills" "9A" 166 ENERGY_UP;
    MatchedTrack.mk "My Will" "Leon Thomas" "8A" (1401 # 10) RHYTHMIC_BREAKER;
    MatchedTrack.mk "i can't feel my face (feat. Nechie)" "Gunna;Nechie" "8A" 127
      SMOOTH ].

Definition tty : Stdout := mkStdout (Some 100%nat) (Some 30%nat).

End Sample.

(** ** ts_sandbox.ts: the choice of the demo *)

Module Sandbox.

Inductive DemoKey : Type :=
| board
| flip.

(** What [main] goes on to do. *)
Inductive Action : Type :=
| ListShortcuts
| RunDemo (key : DemoKey)
| InteractiveMenu.

(** [s.split(sep)] for a separator of one character. *)
Fixpoint split (sep : ascii) (s : string) : list string :=
  match s with
  | EmptyString => [EmptyString]
  | String a rest =>
      if Ascii.eqb a sep then EmptyString :: split sep rest
      else
        match split sep rest with
        | piece :: pieces => String a piece :: pieces
        | [] => [String a EmptyString]
        end
  end.

Definition parseArgRun (argv : list string) : option DemoKey :=
  match find (fun entry => String.prefix "--run=" entry) argv with
  | None => None
  | Some arg =>
      match nth_error (split "="%char arg) 1 with
      | Some value =>
          if String.eqb value "board" then Some board
          else if String.eqb value "flip" then Some flip
          else None
      | None => None
      end
  end.

(** The branches of [main], for the arguments of the process. *)
Definition main (argv : list string) : Action :=
  if existsb (String.eqb "--list") argv then ListShortcuts
  else
    match parseArgRun argv with
    | Some runKey => RunDemo runKey
    | None => InteractiveMenu
    end.

End Sandbox.

(** ** Vocabulary of the properties *)

(** The row indices at which two frames differ, the shorter frame
    padded with empty rows. *)
Definition differingRows (A B : list string) : list nat :=
  filter (fun i => negb (String.eqb (nth i A EmptyString) (nth i B EmptyString)))
         (seq 0 (Nat.max (List.length A) (List.length B))).

(** [reachable tty self]: [self] can be the renderer of a session whose
    terminal is now [tty].  A session starts with a new renderer and
    calls [resetFrameCache] and [writeFrame]; [renderNarrowWarning] and
    [renderTrainBoard] are built from these two (see
    [reachable_renderNarrowWarning] and [reachable_renderTrainBoard]).
    Between two calls the terminal may grow, and it may take any size
    once the cache is reset, the reset that a resize calls for. *)
Inductive reachable : Stdout -> TerminalRenderer.t -> Prop :=
| reach_create (tty : Stdout) : reachable tty TerminalRenderer.create
| reach_reset (tty tty' : Stdout) (self : TerminalRenderer.t) :
    reachable tty self ->
    reachable tty' (TerminalRenderer.resetFrameCache self)
| reach_grow (tty tty' : Stdout) (self : TerminalRenderer.t) :
    reachable tty self ->
    (TerminalRenderer.terminalHeight tty <= TerminalRenderer.terminalHeight tty')%nat ->
    reachable tty' self
| reach_writeFrame (tty : Stdout) (self : TerminalRenderer.t) (lines : list string) :
    reachable tty self ->
    reachable tty (fst (TerminalRenderer.writeFrame tty lines self)).

(** * Properties *)

(** ** Comparisons and rounding of numbers *)

Lemma leb_true (a b : Q) : JS.leb a b = true <-> (a <= b)%Q.
Proof. unfold JS.leb. apply Qle_bool_iff. Qed.

Lemma leb_false (a b : Q) : JS.leb a b = false <-> (b < a)%Q.
Proof.
  unfold JS.leb. split; intro H.
  - apply Qnot_le_lt. intro Hle. apply Qle_bool_iff in Hle. congruence.
  - destruct (Qle_bool a b) eqn:E; [| reflexivity].
    apply Qle_bool_iff in E. exfalso. apply (Qlt_not_le _ _ H E).
Qed.

Lemma ltb_true (a b : Q) : JS.ltb a b = true <-> (a < b)%Q.
Proof.
  unfold JS.ltb. rewrite negb_true_iff. apply (leb_false b a).
Qed.

Lemma ltb_false (a b : Q) : JS.ltb a b = false <-> (b <= a)%Q.
Proof.
  unfold JS.ltb. rewrite negb_false_iff. apply (leb_true b a).
Qed.

Lemma floor_bounds (x : Q) :
  (inject_Z (JS.floor x) <= x)%Q /\ (x < inject_Z (JS.floor x) + 1)%Q.
Proof.
  unfold JS.floor. split.
  - apply Qfloor_le.
  - pose proof (Qlt_floor x) as H. rewrite inject_Z_plus in H. exact H.
Qed.

Lemma ceiling_bounds (x : Q) :
  (inject_Z (Qceiling x) - 1 < x)%Q /\ (x <= inject_Z (Qceiling x))%Q.
Proof.
  split.
  - pose proof (Qceiling_lt x) as H.
    unfold Z.sub in H. rewrite inject_Z_plus in H. exact H.
  - apply Qle_ceiling.
Qed.

(** The remainder of a dividend that is not negative lies in [0, b). *)
Lemma rem_nonneg (a b : Q) :
  (0 < b)%Q -> (0 <= a)%Q -> (0 <= JS.rem a b)%Q /\ (JS.rem a b < b)%Q.
Proof.
  intros Hb Ha. unfold JS.rem, JS.trunc.
  assert (Hq : (0 <= a / b)%Q).
  { apply Qle_shift_div_l; [exact Hb | lra]. }
  apply Qle_bool_iff in Hq as Hq'. rewrite Hq'.
  destruct (floor_bounds (a / b)) as [Hlo Hhi]. unfold JS.floor in *.
  assert (Ea : (a == b * (a / b))%Q) by (field; lra).
  set (k := inject_Z (Qfloor (a / b))) in *.
  set (q := (a / b)%Q) in *.
  split; nra.
Qed.

(** The remainder of a negative dividend lies in (-b, 0]. *)
Lemma rem_neg (a b : Q) :
  (0 < b)%Q -> (a < 0)%Q -> (- b < JS.rem a b)%Q /\ (JS.rem a b <= 0)%Q.
Proof.
  intros Hb Ha. unfold JS.rem, JS.trunc.
  assert (Hq : (a / b < 0)%Q).
  { apply Qlt_shift_div_r; [exact Hb | lra]. }
  destruct (Qle_bool 0 (a / b)) eqn:E.
  { apply Qle_bool_iff in E. lra. }
  destruct (ceiling_bounds (a / b)) as [Hlo Hhi].
  assert (Ea : (a == b * (a / b))%Q) by (field; lra).
  set (k := inject_Z (Qceiling (a / b))) in *.
  set (q := (a / b)%Q) in *.
  split; nra.
Qed.


(** ** PhraseCounter.calculate *)

(** The duration of a beat is positive once the tempo is: no division
    of [calculate] has a zero divisor. *)
Lemma beatDurationMs_pos (bpm : Q) : (0 < bpm)%Q -> (0 < 60000 / bpm)%Q.
Proof.
  intro H. apply Qlt_shift_div_l; [exact H | lra].
Qed.


(** The guard on the time signature is passed by an absent signature,
    by 4 and by 0. *)
Lemma signature_guard_false (timeSignature : option Q) :
  (timeSignature = None
   \/ exists v, timeSignature = Some v /\ ((v == 4)%Q \/ (v == 0)%Q)) ->
  JS.truthy timeSignature && JS.strict_neq timeSignature 4 = false.
Proof.
  intros [-> | (v & -> & [H | H])]; simpl.
  - reflexivity.
  - apply Qeq_bool_iff in H. rewrite H. apply andb_false_r.
  - apply Qeq_bool_iff in H. rewrite H. reflexivity.
Qed.

Lemma signature_guard_true (v : Q) :
  ~ (v == 0)%Q -> ~ (v == 4)%Q ->
  JS.truthy (Some v) && JS.strict_neq (Some v) 4 = true.
Proof.
  intros H0 H4. simpl.
  destruct (Qeq_bool v 0) eqn:E0.
  { apply Qeq_bool_iff in E0. contradiction. }
  destruct (Qeq_bool v 4) eqn:E4.
  { apply Qeq_bool_iff in E4. contradiction. }
  reflexivity.
Qed.

(** With a positive tempo and the guard on the signature passed,
    [calculate] is the 32-beat computation. *)
Lemma calculate_phrase (now : Z) (bpm progressMs timestamp : Q)
    (timeSignature : option Q) (isPlaying : option bool) :
  (0 < bpm)%Q ->
  JS.truthy timeSignature && JS.strict_neq timeSignature 4 = false ->
  let beatDurationMs := (60000 / bpm)%Q in
  let totalBeats :=
    (PhraseCounter.currentProgressMs now progressMs timestamp isPlaying
       / beatDurationMs)%Q in
  let positionInPhrase := JS.rem totalBeats 32 in
  PhraseCounter.calculate now bpm progressMs timestamp timeSignature isPlaying
  = mkPhraseInfo (32 - positionInPhrase)%Q
                 ((32 - positionInPhrase) * beatDurationMs / 1000)%Q
                 (inject_Z (JS.floor positionInPhrase) + 1)%Q.
Proof.
  intros Hbpm Hguard. unfold PhraseCounter.calculate.
  apply leb_false in Hbpm. rewrite Hbpm, Hguard. reflexivity.
Qed.

(** The number of beats left is positive whatever the position is. *)
Lemma beatsRemaining_pos (totalBeats : Q) : (0 < 32 - JS.rem totalBeats 32)%Q.
Proof.
  destruct (Qlt_le_dec totalBeats 0) as [Hneg | Hpos].
  - destruct (rem_neg totalBeats 32) as [_ H]; [lra | exact Hneg | lra].
  - destruct (rem_nonneg totalBeats 32) as [_ H]; [lra | exact Hpos | lra].
Qed.

(** C4.  For a tempo that is zero or negative, whatever the other
    arguments are, [calculate] returns 32 beats remaining, 0 seconds
    remaining and phrase count 1. *)
Theorem calculate_no_tempo (now : Z) (bpm progressMs timestamp : Q)
    (timeSignature : option Q) (isPlaying : option bool) :
  (bpm <= 0)%Q ->
  PhraseCounter.calculate now bpm progressMs timestamp timeSignature isPlaying
  = mkPhraseInfo 32 0 1.
Proof.
  intro H. unfold PhraseCounter.calculate.
  apply leb_true in H. rewrite H. reflexivity.
Qed.

Lemma calculate_no_tempo_witness :
  (-120 <= 0)%Q
  /\ PhraseCounter.calculate 1000 (-120) 5000 900 (Some 3%Q) (Some true)
     = mkPhraseInfo 32 0 1.
Proof.
  split.
  - vm_compute. discriminate.
  - apply (calculate_no_tempo 1000 (-120) 5000 900 (Some 3%Q) (Some true)).
    vm_compute. discriminate.
Defined.

(** C2, as stated, fails.  With a time signature of 3 and a tempo of 0
    the result is the one of the missing tempo, (32, 0, 1); with a time
    signature of 0 and a tempo of 120 the phrase is computed, 32 beats
    remain. *)
Lemma calculate_non44_counterexample :
  (~ (3 == 4)%Q
   /\ PhraseCounter.calculate 1000 0 0 0 (Some 3%Q) (Some true)
      = mkPhraseInfo 32 0 1
   /\ PhraseCounter.calculate 1000 0 0 0 (Some 3%Q) (Some true)
      <> mkPhraseInfo 0 0 0)
  /\ (~ (0 == 4)%Q
      /\ (beatsRemaining
            (PhraseCounter.calculate 1000 120 0 1000 (Some 0%Q) (Some true))
          == 32)%Q
      /\ PhraseCounter.calculate 1000 120 0 1000 (Some 0%Q) (Some true)
         <> mkPhraseInfo 0 0 0).
Proof.
  split; (split; [vm_compute; discriminate |]);
    (split; [reflexivity | vm_compute; discriminate]).
Qed.

(** C2, amended.  For a positive tempo and a time signature that is
    given, is not 0 and is not 4, [calculate] returns 0 beats
    remaining, 0 seconds remaining and phrase count 0. *)
Theorem calculate_non44 (now : Z) (bpm progressMs timestamp v : Q)
    (isPlaying : option bool) :
  (0 < bpm)%Q -> ~ (v == 0)%Q -> ~ (v == 4)%Q ->
  PhraseCounter.calculate now bpm progressMs timestamp (Some v) isPlaying
  = mkPhraseInfo 0 0 0.
Proof.
  intros Hbpm H0 H4. unfold PhraseCounter.calculate.
  apply leb_false in Hbpm. rewrite Hbpm.
  rewrite (signature_guard_true v H0 H4). reflexivity.
Qed.

Lemma calculate_non44_witness :
  (0 < 120)%Q /\ ~ (3 == 0)%Q /\ ~ (3 == 4)%Q
  /\ PhraseCounter.calculate 1000 120 5000 900 (Some 3%Q) (Some true)
     = mkPhraseInfo 0 0 0.
Proof.
  assert (Hb : (0 < 120)%Q) by (vm_compute; reflexivity).
  assert (H0 : ~ (3 == 0)%Q) by (vm_compute; discriminate).
  assert (H4 : ~ (3 == 4)%Q) by (vm_compute; discriminate).
  split; [exact Hb | split; [exact H0 | split; [exact H4 |]]].
  exact (calculate_non44 1000 120 5000 900 3 (Some true) Hb H0 H4).
Defined.



(** C10.  For a positive tempo, a time signature of 0 is treated as an
    absent one and as 4: the 32-beat result is computed, and it is not
    the result (0, 0, 0) of the other signatures. *)
Theorem calculate_zero_signature (now : Z) (bpm progressMs timestamp v : Q)
    (isPlaying : option bool) :
  (0 < bpm)%Q -> (v == 0)%Q ->
  let result :=
    PhraseCounter.calculate now bpm progressMs timestamp (Some v) isPlaying in
  result = PhraseCounter.calculate now bpm progressMs timestamp None isPlaying
  /\ result
     = PhraseCounter.calculate now bpm progressMs timestamp (Some 4%Q) isPlaying
  /\ result <> mkPhraseInfo 0 0 0
  /\ (0 < beatsRemaining result)%Q.
Proof.
  intros Hbpm Hv result.
  assert (E : result
              = PhraseCounter.calculate now bpm progressMs timestamp None isPlaying).
  { unfold result.
    rewrite !calculate_phrase; try exact Hbpm; try reflexivity.
    apply signature_guard_false. right. exists v.
    split; [reflexivity | right; exact Hv]. }
  assert (Hpos : (0 < beatsRemaining result)%Q).
  { rewrite E. rewrite calculate_phrase; [| exact Hbpm | reflexivity].
    cbn [beatsRemaining]. apply beatsRemaining_pos. }
  split; [exact E |]. split.
  - rewrite E. rewrite !calculate_phrase; try exact Hbpm; reflexivity.
  - split; [| exact Hpos].
    intro Hs. rewrite Hs in Hpos. cbn [beatsRemaining] in Hpos.
    apply (Qlt_irrefl 0). exact Hpos.
Qed.

Lemma calculate_zero_signature_witness :
  PhraseCounter.calculate 5000 120 0 4000 (Some 0%Q) (Some true)
  <> mkPhraseInfo 0 0 0.
Proof.
  assert (Hbpm : (0 < 120)%Q) by (vm_compute; reflexivity).
  assert (Hv : (0 == 0)%Q) by reflexivity.
  destruct (calculate_zero_signature 5000 120 0 4000 0 (Some true) Hbpm Hv)
    as (_ & _ & H & _).
  exact H.
Defined.

(** ** TerminalRenderer.writeFrame *)

(** Clipping keeps the first rows, as many as the terminal has. *)
Lemma slice_prefix {A : Type} (l : list A) (h : nat) :
  JS.slice l 0 (Z.of_nat h) = firstn h l.
Proof.
  unfold JS.slice, JS.slice_index.
  replace (0 <? 0)%Z with false by reflexivity.
  replace (Z.of_nat h <? 0)%Z with false by (symmetry; apply Z.ltb_ge; lia).
  rewrite (Z.min_l 0) by lia. cbn [Z.to_nat skipn].
  destruct (Nat.le_gt_cases h (List.length l)) as [Hle | Hgt].
  - replace (Z.to_nat (Z.max (Z.min (Z.of_nat h) (Z.of_nat (List.length l)) - 0) 0))
      with h by lia.
    reflexivity.
  - replace (Z.to_nat (Z.max (Z.min (Z.of_nat h) (Z.of_nat (List.length l)) - 0) 0))
      with (List.length l) by lia.
    rewrite firstn_all. symmetry. apply firstn_all2. lia.
Qed.

(** The loop pushes one piece for each row of its range that differs,
    in the order of the rows. *)
Lemma diffLoop_spec (clippedLines previous : list string) (n i : nat)
    (buffer : list string) :
  TerminalRenderer.diffLoop clippedLines previous i n buffer
  = buffer
      +++ map (fun j => TerminalRenderer.rowWrite j (nth j clippedLines EmptyString))
              (filter (fun j => negb (String.eqb (nth j clippedLines EmptyString)
                                                 (nth j previous EmptyString)))
                      (seq i n)).
Proof.
  revert i buffer. induction n as [| n IH]; intros i buffer; cbn [TerminalRenderer.diffLoop seq filter map].
  - symmetry. apply app_nil_r.
  - rewrite IH.
    destruct (negb (String.eqb (nth i clippedLines EmptyString)
                               (nth i previous EmptyString))).
    + cbn [map]. rewrite <- app_assoc. reflexivity.
    + reflexivity.
Qed.

(** What one call of [writeFrame] does: the frame is clipped, the
    buffer holds the cursor reset and one piece for each differing row,
    the buffer is written in one piece, the clipped frame is stored. *)
Lemma writeFrame_spec (tty : Stdout) (lines : list string)
    (self : TerminalRenderer.t) :
  let clippedLines := firstn (TerminalRenderer.terminalHeight tty) lines in
  let buffer :=
    CURSOR_HOME
      :: map (fun i => TerminalRenderer.rowWrite i (nth i clippedLines EmptyString))
             (differingRows clippedLines (TerminalRenderer.previousFrame self)) in
  TerminalRenderer.writeFrame tty lines self
  = (TerminalRenderer.mk clippedLines, mkOutput buffer (Some (JS.join buffer))).
Proof.
  unfold TerminalRenderer.writeFrame. rewrite slice_prefix, diffLoop_spec.
  reflexivity.
Qed.

Lemma differingRows_same (A : list string) : differingRows A A = [].
Proof.
  unfold differingRows.
  induction (seq 0 (Nat.max (List.length A) (List.length A))) as [| i l IH].
  - reflexivity.
  - cbn [filter]. rewrite String.eqb_refl. exact IH.
Qed.

Lemma differingRows_In (A B : list string) (i : nat) :
  In i (differingRows A B) <-> nth i A EmptyString <> nth i B EmptyString.
Proof.
  unfold differingRows. rewrite filter_In, in_seq, negb_true_iff, String.eqb_neq.
  split; [tauto |]. intro Hne. split; [| exact Hne].
  split; [lia |]. cbn [Nat.add].
  destruct (Nat.lt_ge_cases i (Nat.max (List.length A) (List.length B)))
    as [Hlt | Hge]; [exact Hlt |].
  exfalso. apply Hne. rewrite !nth_overflow by lia. reflexivity.
Qed.



Lemma reachable_renderNarrowWarning (tty : Stdout) (width : Z)
    (self : TerminalRenderer.t) :
  reachable tty self ->
  reachable tty (fst (TerminalRenderer.renderNarrowWarning tty width self)).
Proof.
  intro H. unfold TerminalRenderer.renderNarrowWarning.
  apply reach_writeFrame. apply (reach_reset tty tty). exact H.
Qed.

Lemma renderTrainBoard_layout (env : Platform) (tty : Stdout)
    (currentTrack : option CurrentTrack.t)
    (recommendations : list MatchedTrack.t) (phraseInfo : option PhraseInfo)
    (showExitWarning : bool) (debugMessage : option string)
    (logs : list string) (selectedCategory : Category) (scrollOffset : Z)
    (showHelp : bool) (notices : list string) (totalTracksInLibrary : Z)
    (self : TerminalRenderer.t) :
  let layout :=
    TerminalRenderer.layoutTrainBoard env tty currentTrack recommendations
      phraseInfo showExitWarning debugMessage logs selectedCategory
      scrollOffset showHelp notices totalTracksInLibrary in
  TerminalRenderer.renderTrainBoard env tty currentTrack recommendations
    phraseInfo showExitWarning debugMessage logs selectedCategory scrollOffset
    showHelp notices totalTracksInLibrary self
  = (TerminalRenderer.writeFrame tty (fst layout) self, snd layout).
Proof.
  unfold TerminalRenderer.renderTrainBoard.
  destruct (TerminalRenderer.layoutTrainBoard _ _ _ _ _ _ _ _ _ _ _ _ _).
  reflexivity.
Qed.

Lemma reachable_renderTrainBoard (env : Platform) (tty : Stdout)
    (currentTrack : option CurrentTrack.t)
    (recommendations : list MatchedTrack.t) (phraseInfo : option PhraseInfo)
    (showExitWarning : bool) (debugMessage : option string)
    (logs : list string) (selectedCategory : Category) (scrollOffset : Z)
    (showHelp : bool) (notices : list string) (totalTracksInLibrary : Z)
    (self : TerminalRenderer.t) :
  reachable tty self ->
  reachable tty
    (fst (fst (TerminalRenderer.renderTrainBoard env tty currentTrack
                 recommendations phraseInfo showExitWarning debugMessage logs
                 selectedCategory scrollOffset showHelp notices
                 totalTracksInLibrary self))).
Proof.
  intro H. rewrite renderTrainBoard_layout. cbn [fst].
  apply reach_writeFrame, H.
Qed.

(** A frame written a second time still writes the cursor reset. *)
Lemma writeFrame_again (tty : Stdout) (lines : list string)
    (self : TerminalRenderer.t) :
  snd (TerminalRenderer.writeFrame tty lines
         (fst (TerminalRenderer.writeFrame tty lines self)))
  = mkOutput [CURSOR_HOME] (Some CURSOR_HOME).
Proof.
  rewrite (writeFrame_spec tty lines self). cbn [fst].
  rewrite writeFrame_spec. cbn [snd TerminalRenderer.previousFrame].
  rewrite differingRows_same. reflexivity.
Qed.

(** C1.  What the code does on the second of two identical calls,
    whether [writeFrame] is called directly or through
    [renderTrainBoard] with the same arguments, terminal and clock: no
    row is written, but the output stream does receive the cursor reset,
    three bytes, where the claim has zero bytes. *)
Theorem second_frame_writes_cursor_home (env : Platform) (tty : Stdout)
    (currentTrack : option CurrentTrack.t)
    (recommendations : list MatchedTrack.t) (phraseInfo : option PhraseInfo)
    (showExitWarning : bool) (debugMessage : option string)
    (logs : list string) (selectedCategory : Category) (scrollOffset : Z)
    (showHelp : bool) (notices : list string) (totalTracksInLibrary : Z)
    (lines : list string) (self : TerminalRenderer.t) :
  (let first := TerminalRenderer.writeFrame tty lines self in
   let second := TerminalRenderer.writeFrame tty lines (fst first) in
   buffer (snd second) = [CURSOR_HOME]
   /\ written (snd second) = Some CURSOR_HOME
   /\ bytesWritten (snd second) = 3%nat)
  /\ (let render :=
        TerminalRenderer.renderTrainBoard env tty currentTrack recommendations
          phraseInfo showExitWarning debugMessage logs selectedCategory
          scrollOffset showHelp notices totalTracksInLibrary in
      let first := render self in
      let second := render (fst (fst first)) in
      buffer (snd (fst second)) = [CURSOR_HOME]
      /\ written (snd (fst second)) = Some CURSOR_HOME
      /\ bytesWritten (snd (fst second)) = 3%nat).
Proof.
  split.
  - cbv zeta. rewrite writeFrame_again. repeat split.
  - cbv zeta. rewrite !renderTrainBoard_layout. cbn [fst].
    rewrite writeFrame_again. repeat split.
Qed.

(** The same on a terminal of 24 rows, for a frame of one row. *)
Example second_frame_sample :
  let tty := mkStdout (Some 80%nat) (Some 24%nat) in
  let first := TerminalRenderer.writeFrame tty ["a"] TerminalRenderer.create in
  let second := TerminalRenderer.writeFrame tty ["a"] (fst first) in
  written (snd second) = Some CURSOR_HOME /\ bytesWritten (snd second) = 3%nat.
Proof. split; reflexivity. Qed.

(** The decimal text of a row number ends at the first semicolon: two
    pieces that start alike name the same row. *)
Lemma digits_then_semicolon (d1 d2 : Decimal.uint) (x y : string) :
  NilEmpty.string_of_uint d1 ++ String ";" x
  = NilEmpty.string_of_uint d2 ++ String ";" y ->
  NilEmpty.string_of_uint d1 = NilEmpty.string_of_uint d2.
Proof.
  revert d2. induction d1 as [| d1 IH | d1 IH | d1 IH | d1 IH | d1 IH | d1 IH
                               | d1 IH | d1 IH | d1 IH | d1 IH];
    intros [| d2 | d2 | d2 | d2 | d2 | d2 | d2 | d2 | d2 | d2];
    cbn [NilEmpty.string_of_uint String.append]; intro H;
    try discriminate H; try reflexivity;
    injection H as H; f_equal; apply IH; exact H.
Qed.

Lemma show_nat_value (n : nat) :
  option_map Nat.of_uint (NilZero.uint_of_string (JS.show_nat n)) = Some n.
Proof.
  unfold JS.show_nat.
  pose proof (DecimalNat.Unsigned.of_to n) as Hn.
  destruct (Nat.to_uint n) eqn:En;
    try (rewrite NilZero.usu by discriminate; cbn [option_map]; f_equal; exact Hn).
  cbn in Hn. subst n. reflexivity.
Qed.

Lemma show_nat_semicolon (n m : nat) (x y : string) :
  JS.show_nat n ++ String ";" x = JS.show_nat m ++ String ";" y -> n = m.
Proof.
  intro H.
  assert (E : JS.show_nat n = JS.show_nat m).
  { unfold JS.show_nat, NilZero.string_of_uint in *.
    assert (Hz : forall d,
               match d with
               | Decimal.Nil => "0"
               | _ => NilEmpty.string_of_uint d
               end
               = NilEmpty.string_of_uint
                   (match d with Decimal.Nil => Decimal.D0 Decimal.Nil | _ => d end)).
    { intros []; reflexivity. }
    rewrite !Hz in *. apply (digits_then_semicolon _ _ x y). exact H. }
  pose proof (show_nat_value n) as Hn. rewrite E, show_nat_value in Hn.
  injection Hn as Hn. symmetry. exact Hn.
Qed.

Lemma rowWrite_inj (i j : nat) (s t : string) :
  TerminalRenderer.rowWrite i s = TerminalRenderer.rowWrite j t -> i = j.
Proof.
  unfold TerminalRenderer.rowWrite, ESC. cbn [String.append]. intro H.
  injection H as H. apply show_nat_semicolon in H. lia.
Qed.




Lemma rowWrite_not_home (i : nat) (text : string) :
  TerminalRenderer.rowWrite i text <> CURSOR_HOME.
Proof.
  unfold TerminalRenderer.rowWrite, CURSOR_HOME, ESC, JS.show_nat,
    NilZero.string_of_uint.
  destruct (Nat.to_uint (i + 1)); cbn; discriminate.
Qed.





(** ** renderTrainBoard: the scroll window *)

Lemma clampScroll_spec (scrollOffset totalLines maxLines : Z) :
  let maxScroll := Z.max 0 (totalLines - maxLines) in
  TerminalRenderer.clampScroll scrollOffset totalLines maxLines
  = (Z.min (Z.max scrollOffset 0) maxScroll, maxScroll).
Proof.
  unfold TerminalRenderer.clampScroll. cbv zeta. f_equal.
  destruct (Z.ltb_spec scrollOffset 0) as [Hneg | Hpos].
  - destruct (Z.ltb_spec (Z.max 0 (totalLines - maxLines)) 0); lia.
  - destruct (Z.ltb_spec (Z.max 0 (totalLines - maxLines)) scrollOffset); lia.
Qed.

(** A slice that starts inside the array is a prefix of what follows
    the start. *)
Lemma slice_window {A : Type} (l : list A) (k w : Z) :
  (0 <= k <= Z.of_nat (List.length l))%Z -> (0 <= w)%Z ->
  JS.slice l k (k + w) = firstn (Z.to_nat w) (skipn (Z.to_nat k) l).
Proof.
  intros Hk Hw. unfold JS.slice, JS.slice_index.
  replace (k <? 0)%Z with false by (symmetry; apply Z.ltb_ge; lia).
  replace (k + w <? 0)%Z with false by (symmetry; apply Z.ltb_ge; lia).
  rewrite (Z.min_l k) by lia.
  destruct (Z.le_gt_cases (k + w) (Z.of_nat (List.length l))) as [Hin | Hout].
  - f_equal. lia.
  - rewrite (firstn_all2 (n := Z.to_nat w)) by (rewrite length_skipn; lia).
    apply firstn_all2. rewrite length_skipn. lia.
Qed.

(** When every row of the list fits the window, the window shows the
    whole list: the branch of the notice for a terminal that is too
    small is never taken. *)
Lemma tooSmall_never (displayLines : list string) (scrollOffset maxLines : Z) :
  let totalLines := Z.of_nat (List.length displayLines) in
  let offset := fst (TerminalRenderer.clampScroll scrollOffset totalLines maxLines) in
  let visibleLines := JS.slice displayLines offset (offset + maxLines) in
  (maxLines <? totalLines)%Z = false ->
  (List.length visibleLines =? 0)%nat && (0 <? totalLines)%Z = false.
Proof.
  intros totalLines offset visibleLines Hfit. apply Z.ltb_ge in Hfit.
  assert (E : offset = 0%Z).
  { unfold offset. rewrite clampScroll_spec. cbn [fst]. lia. }
  assert (Ev : visibleLines = displayLines).
  { unfold visibleLines. rewrite E. rewrite slice_window by lia.
    cbn [Z.to_nat skipn]. apply firstn_all2. lia. }
  rewrite Ev. fold totalLines.
  destruct displayLines as [| x l].
  - apply andb_false_r.
  - reflexivity.
Qed.

(** C7.  For every scroll offset, list of recommendations and terminal,
    with [rows] the rows of the filtered list and [window] the rows
    left for it: [renderTrainBoard] returns [maxScroll = max 0 (total -
    window)] and the offset clamped between 0 and [maxScroll] (the
    offset itself when it already lies there); the frame it hands to
    [writeFrame] is the top of the board, then exactly the rows of the
    list from the clamped offset on, as many as the window has, then
    the bottom of the board. *)
Theorem renderTrainBoard_scroll (env : Platform) (tty : Stdout)
    (currentTrack : option CurrentTrack.t)
    (recommendations : list MatchedTrack.t) (phraseInfo : option PhraseInfo)
    (showExitWarning : bool) (debugMessage : option string)
    (logs : list string) (selectedCategory : Category) (scrollOffset : Z)
    (showHelp : bool) (notices : list string) (totalTracksInLibrary : Z)
    (self : TerminalRenderer.t) :
  let terminalHeight := Z.of_nat (TerminalRenderer.terminalHeight tty) in
  let width :=
    TerminalRenderer.effectiveWidth (Z.of_nat (TerminalRenderer.terminalWidth tty)) in
  let ripple :=
    buildRippleState env (width + 2) terminalHeight
      (match currentTrack with Some _ => true | None => false end) in
  let top :=
    TerminalRenderer.topLines env width ripple currentTrack phraseInfo
      selectedCategory notices in
  let rows :=
    TerminalRenderer.displayLines env width currentTrack recommendations
      debugMessage selectedCategory totalTracksInLibrary in
  let window :=
    TerminalRenderer.availableForRecs terminalHeight (Z.of_nat (List.length top))
      (TerminalRenderer.reservedLines showExitWarning showHelp width logs) in
  let total := Z.of_nat (List.length rows) in
  let result :=
    TerminalRenderer.renderTrainBoard env tty currentTrack recommendations
      phraseInfo showExitWarning debugMessage logs selectedCategory scrollOffset
      showHelp notices totalTracksInLibrary self in
  let clamped := clampedOffset (snd result) in
  maxScroll (snd result) = Z.max 0 (total - window)
  /\ (0 <= clamped <= maxScroll (snd result))%Z
  /\ clamped = Z.min (Z.max scrollOffset 0) (maxScroll (snd result))
  /\ ((0 <= scrollOffset <= maxScroll (snd result))%Z -> clamped = scrollOffset)
  /\ (let visible := firstn (Z.to_nat window) (skipn (Z.to_nat clamped) rows) in
      let frame :=
        TerminalRenderer.closingLines env
          (Z.of_nat (TerminalRenderer.terminalWidth tty)) terminalHeight ripple
          showExitWarning showHelp
          (TerminalRenderer.helpLines showHelp width)
          (TerminalRenderer.logLines width logs) (top +++ visible) in
      fst result = TerminalRenderer.writeFrame tty frame self
      /\ exists bottom : list string, frame = top +++ visible +++ bottom).
Proof.
  intros terminalHeight width ripple top rows window total result clamped.
  assert (Hwin : (0 <= window)%Z).
  { unfold window, TerminalRenderer.availableForRecs. lia. }
  pose proof (clampScroll_spec scrollOffset total window) as Hclamp.
  cbv zeta in Hclamp.
  pose proof (tooSmall_never rows scrollOffset window) as Hdead.
  cbv zeta in Hdead. fold total in Hdead. rewrite Hclamp in Hdead. cbn [fst] in Hdead.
  unfold clamped, result. rewrite renderTrainBoard_layout.
  unfold TerminalRenderer.layoutTrainBoard.
  fold terminalHeight. fold width. fold ripple. fold top. fold rows.
  fold window. fold total. rewrite Hclamp.
  set (m := Z.max 0 (total - window)) in *.
  set (c := Z.min (Z.max scrollOffset 0) m) in *.
  cbv zeta. cbn [fst snd clampedOffset maxScroll].
  split; [reflexivity |]. split; [unfold c, m; lia |].
  split; [reflexivity |]. split; [unfold c; lia |].
  assert (Hslice : JS.slice rows c (c + window)
                   = firstn (Z.to_nat window) (skipn (Z.to_nat c) rows)).
  { apply slice_window; [unfold c, m, total; lia | exact Hwin]. }
  rewrite Hslice in *.
  set (visible := firstn (Z.to_nat window) (skipn (Z.to_nat c) rows)) in *.
  assert (Hnotice :
            (if (window <? total)%Z then top +++ visible
             else if (List.length visible =? 0)%nat && (0 <? total)%Z then
               (top +++ visible)
                 +++ [colors.dim ++ " (Terminal too small to show tracks) "
                        ++ colors.reset]
             else top +++ visible)
            = top +++ visible).
  { destruct (window <? total)%Z; [reflexivity |].
    rewrite Hdead by reflexivity. reflexivity. }
  rewrite Hnotice. split; [reflexivity |].
  unfold TerminalRenderer.closingLines, TerminalRenderer.padLines.
  destruct (0 <? List.length (TerminalRenderer.logLines width logs))%nat;
    destruct showHelp; eexists; rewrite <- ?app_assoc; reflexivity.
Qed.

(** ** renderTrainBoard: the progress bar *)

Lemma min_cases (a b : Q) :
  ((a <= b)%Q /\ JS.min a b = a) \/ ((b < a)%Q /\ JS.min a b = b).
Proof.
  unfold JS.min. destruct (Qle_bool a b) eqn:E.
  - left. split; [apply Qle_bool_iff; exact E | reflexivity].
  - right. split; [apply (leb_false a b); exact E | reflexivity].
Qed.

Lemma max_cases (a b : Q) :
  ((a <= b)%Q /\ JS.max a b = b) \/ ((b < a)%Q /\ JS.max a b = a).
Proof.
  unfold JS.max. destruct (Qle_bool a b) eqn:E.
  - left. split; [apply Qle_bool_iff; exact E | reflexivity].
  - right. split; [apply (leb_false a b); exact E | reflexivity].
Qed.

(** The percentage is the quotient clamped to [0, 1], and 0 when the
    duration is zero or negative. *)
Lemma percentOf_range (currentMs duration_ms : Q) :
  let percent := TerminalRenderer.percentOf currentMs duration_ms in
  (0 <= percent)%Q /\ (percent <= 1)%Q
  /\ ((duration_ms <= 0)%Q -> percent = 0%Q)
  /\ ((0 < duration_ms)%Q ->
      ((currentMs / duration_ms <= 0)%Q -> (percent == 0)%Q)
      /\ ((1 <= currentMs / duration_ms)%Q -> (percent == 1)%Q)
      /\ ((0 <= currentMs / duration_ms)%Q -> (currentMs / duration_ms <= 1)%Q ->
          (percent == currentMs / duration_ms)%Q)).
Proof.
  unfold TerminalRenderer.percentOf.
  destruct (JS.leb duration_ms 0) eqn:E.
  - apply leb_true in E. repeat split; intros; lra.
  - apply leb_false in E.
    generalize (currentMs / duration_ms)%Q. intro q.
    destruct (max_cases 0 q) as [[H1 ->] | [H1 ->]];
      [destruct (min_cases 1 q) as [[H2 ->] | [H2 ->]]
      | destruct (min_cases 1 0) as [[H2 ->] | [H2 ->]]];
      repeat split; intros; lra.
Qed.

Lemma round_bounds (x : Q) :
  (inject_Z (JS.round x) <= x + (1 # 2))%Q
  /\ (x - (1 # 2) < inject_Z (JS.round x))%Q.
Proof.
  unfold JS.round. destruct (floor_bounds (x + (1 # 2))) as [Hlo Hhi].
  unfold JS.floor in *. split; lra.
Qed.

(** The width of the bar drawn by [renderTrainBoard]. *)
Lemma barWidth_range (effectiveWidth : Z) :
  (40 <= TerminalRenderer.barWidth effectiveWidth <= 60)%Z.
Proof. unfold TerminalRenderer.barWidth. lia. Qed.




(** ** renderTrainBoard: the playback position *)

(** C9, as stated, fails: the position has no lower clamp.  For a track
    that plays, with progress 0 and a timestamp one second ahead of the
    clock, the position is minus one second. *)
Lemma currentMs_negative_counterexample :
  let currentTrack :=
    CurrentTrack.mk "t" "a" None 0 200000 6000 true (mkAudioFeatures 120 None) in
  (TerminalRenderer.currentMs 5000 currentTrack == -1000)%Q
  /\ ~ (0 <= TerminalRenderer.currentMs 5000 currentTrack)%Q.
Proof.
  split; [reflexivity |]. vm_compute. intro H. apply H. reflexivity.
Qed.

(** C9, amended.  The position used for the progress bar is the
    progress, plus the time elapsed since the timestamp only while the
    track plays, cut at the duration: it is at most the duration, and it
    is at least 0 when the progress and the duration are not negative
    and, while playing, the timestamp is not ahead of the clock.  The
    percentage drawn lies in [0, 1] in every case. *)
Theorem currentMs_bounds (now : Z) (currentTrack : CurrentTrack.t) :
  let progress := CurrentTrack.progress_ms currentTrack in
  let duration := CurrentTrack.duration_ms currentTrack in
  let elapsed := (inject_Z now - CurrentTrack.timestamp currentTrack)%Q in
  let position := TerminalRenderer.currentMs now currentTrack in
  (position <= duration)%Q
  /\ (CurrentTrack.isPlaying currentTrack = true ->
      position = JS.min (progress + elapsed)%Q duration)
  /\ (CurrentTrack.isPlaying currentTrack = false ->
      position = JS.min (progress + 0)%Q duration)
  /\ ((0 <= progress)%Q -> (0 <= duration)%Q ->
      (CurrentTrack.isPlaying currentTrack = true -> (0 <= elapsed)%Q) ->
      (0 <= position)%Q)
  /\ (0 <= TerminalRenderer.percentOf position duration)%Q
  /\ (TerminalRenderer.percentOf position duration <= 1)%Q.
Proof.
  intros progress duration elapsed position.
  assert (Hp : position
               = JS.min (progress
                         + (if CurrentTrack.isPlaying currentTrack
                            then elapsed else 0))%Q duration) by reflexivity.
  split.
  { rewrite Hp. destruct (min_cases (progress
                         + (if CurrentTrack.isPlaying currentTrack
                            then elapsed else 0))%Q duration) as [[H ->] | [H ->]]; lra. }
  split; [intro E; rewrite Hp, E; reflexivity |].
  split; [intro E; rewrite Hp, E; reflexivity |].
  split.
  { intros H0 Hd He. rewrite Hp.
    destruct (CurrentTrack.isPlaying currentTrack).
    - specialize (He eq_refl).
      destruct (min_cases (progress + elapsed)%Q duration) as [[H ->] | [H ->]]; lra.
    - destruct (min_cases (progress + 0)%Q duration) as [[H ->] | [H ->]]; lra. }
  destruct (percentOf_range position duration) as (Hlo & Hhi & _).
  split; assumption.
Qed.

Lemma currentMs_bounds_witness :
  let currentTrack :=
    CurrentTrack.mk "t" "a" None 142000 325000 4000 true (mkAudioFeatures 113 None) in
  (0 <= TerminalRenderer.currentMs 5000 currentTrack)%Q
  /\ (TerminalRenderer.currentMs 5000 currentTrack <= 325000)%Q.
Proof.
  intro currentTrack.
  destruct (currentMs_bounds 5000 currentTrack) as (Hup & _ & _ & Hlow & _).
  split; [| exact Hup].
  apply Hlow; intros; vm_compute; discriminate.
Defined.

(** ** The sample session *)

(** A tempo of 120, progress 0, a reference one second before the
    clock: two beats have gone by and 30 are left. *)
Example sample_phrase :
  let result := PhraseCounter.calculate 5000 120 0 4000 (Some 4%Q) (Some true) in
  (beatsRemaining result == 30)%Q
  /\ (timeRemainingSeconds result == 15)%Q
  /\ (phraseCount result == 3)%Q.
Proof. repeat split. Qed.

(** The sample board on a terminal of 30 rows: 14 rows in the list, a
    window of 10, and the offset 3 kept. *)
Example sample_board :
  snd (TerminalRenderer.layoutTrainBoard (Sample.env 1000500) Sample.tty
         (Some Sample.track) Sample.recommendations None false None []
         ALL 3 false ["Demo"] 10)
  = mkScroll 3 4.
Proof. vm_compute. reflexivity. Qed.

(** The same list on a terminal of 10 rows, with the help panel and one
    line of log: no row is left for the list, and the offset is cut to
    the 14 rows of the list. *)
Example sample_small_board :
  snd (TerminalRenderer.layoutTrainBoard (Sample.env 1000500)
         (mkStdout (Some 100%nat) (Some 10%nat))
         (Some Sample.track) Sample.recommendations None false None ["log"]
         ALL 50 true [] 10)
  = mkScroll 14 14.
Proof. vm_compute. reflexivity. Qed.

(** * Further properties of the code *)

(** ** PhraseCounter.calculate: pauses and ranges *)

Lemma floor_comp (x y : Q) : (x == y)%Q -> JS.floor x = JS.floor y.
Proof. intro E. unfold JS.floor. rewrite E. reflexivity. Qed.

Lemma rem_comp (a a' b : Q) : (a == a')%Q -> (JS.rem a b == JS.rem a' b)%Q.
Proof.
  intro E. unfold JS.rem, JS.trunc.
  assert (Ed : (a / b == a' / b)%Q) by (rewrite E; reflexivity).
  assert (Eb : Qle_bool 0 (a / b) = Qle_bool 0 (a' / b)).
  { destruct (Qle_bool 0 (a / b)) eqn:E1; destruct (Qle_bool 0 (a' / b)) eqn:E2;
      try reflexivity.
    - apply Qle_bool_iff in E1. rewrite Ed in E1. apply Qle_bool_iff in E1. congruence.
    - apply Qle_bool_iff in E2. rewrite <- Ed in E2. apply Qle_bool_iff in E2. congruence. }
  rewrite <- Eb. destruct (Qle_bool 0 (a / b)).
  - rewrite (Qfloor_comp _ _ Ed), E. reflexivity.
  - rewrite (Qceiling_comp _ _ Ed), E. reflexivity.
Qed.

(** The result depends on the clock, the progress, the timestamp and
    the play state only through the playback position. *)
Lemma calculate_position (now now' : Z) (bpm progressMs progressMs' : Q)
    (timestamp timestamp' : Q) (timeSignature : option Q)
    (isPlaying isPlaying' : option bool) :
  (PhraseCounter.currentProgressMs now progressMs timestamp isPlaying
   == PhraseCounter.currentProgressMs now' progressMs' timestamp' isPlaying')%Q ->
  let r := PhraseCounter.calculate now bpm progressMs timestamp timeSignature isPlaying in
  let r' :=
    PhraseCounter.calculate now' bpm progressMs' timestamp' timeSignature isPlaying' in
  (beatsRemaining r == beatsRemaining r')%Q
  /\ (timeRemainingSeconds r == timeRemainingSeconds r')%Q
  /\ (phraseCount r == phraseCount r')%Q.
Proof.
  intros E r r'. unfold r, r', PhraseCounter.calculate.
  destruct (JS.leb bpm 0); [repeat split; reflexivity |].
  destruct (JS.truthy timeSignature && JS.strict_neq timeSignature 4);
    [repeat split; reflexivity |].
  cbv zeta. cbn [beatsRemaining timeRemainingSeconds phraseCount].
  assert (Er : (JS.rem (PhraseCounter.currentProgressMs now progressMs timestamp isPlaying
                        / (60000 / bpm)) 32
                == JS.rem (PhraseCounter.currentProgressMs now' progressMs' timestamp'
                             isPlaying' / (60000 / bpm)) 32)%Q).
  { apply rem_comp. rewrite E. reflexivity. }
  split; [rewrite Er; reflexivity |].
  split; [rewrite Er; reflexivity |].
  rewrite (floor_comp _ _ Er). reflexivity.
Qed.

(** X2.  While the track is paused, or when the timestamp is zero or
    negative, no elapsed time enters the result: it is the result of a
    paused track with the same progress, whatever the clock and the
    timestamp are. *)
Theorem calculate_no_drift (now now' : Z) (bpm progressMs timestamp timestamp' : Q)
    (timeSignature : option Q) (isPlaying : option bool) :
  isPlaying = Some false \/ (timestamp <= 0)%Q ->
  let r := PhraseCounter.calculate now bpm progressMs timestamp timeSignature isPlaying in
  let r' :=
    PhraseCounter.calculate now' bpm progressMs timestamp' timeSignature (Some false) in
  (beatsRemaining r == beatsRemaining r')%Q
  /\ (timeRemainingSeconds r == timeRemainingSeconds r')%Q
  /\ (phraseCount r == phraseCount r')%Q.
Proof.
  intro H. apply calculate_position.
  unfold PhraseCounter.currentProgressMs. cbv zeta.
  destruct H as [-> | Ht].
  - reflexivity.
  - apply ltb_false in Ht. rewrite Ht.
    destruct isPlaying as [[|] |]; ring.
Qed.

Lemma calculate_no_drift_witness :
  (beatsRemaining (PhraseCounter.calculate 5000 120 7000 0 None (Some true))
   == beatsRemaining (PhraseCounter.calculate 9000 120 7000 1234 None (Some false)))%Q.
Proof.
  assert (H : Some true = Some false \/ (0 <= 0)%Q)
    by (right; vm_compute; discriminate).
  destruct (calculate_no_drift 5000 9000 120 7000 0 1234 None (Some true) H)
    as (E & _).
  exact E.
Defined.

(** X3.  For a positive tempo, a 4/4 (or absent, or zero) time
    signature and a position that is not negative: the phrase count is
    a whole number from 1 to 32, the beats remaining lie between
    [32 - count] and [33 - count], they are positive and at most 32,
    and the time remaining is positive. *)
Theorem calculate_ranges (now : Z) (bpm progressMs timestamp : Q)
    (timeSignature : option Q) (isPlaying : option bool) :
  (0 < bpm)%Q ->
  JS.truthy timeSignature && JS.strict_neq timeSignature 4 = false ->
  (0 <= PhraseCounter.currentProgressMs now progressMs timestamp isPlaying)%Q ->
  let r := PhraseCounter.calculate now bpm progressMs timestamp timeSignature isPlaying in
  (exists k : Z,
      (1 <= k <= 32)%Z
      /\ (phraseCount r == inject_Z k)%Q
      /\ (32 - inject_Z k <= beatsRemaining r)%Q
      /\ (beatsRemaining r <= 33 - inject_Z k)%Q)
  /\ (0 < beatsRemaining r)%Q
  /\ (beatsRemaining r <= 32)%Q
  /\ (0 < timeRemainingSeconds r)%Q.
Proof.
  intros Hbpm Hg Hpos r. unfold r. rewrite calculate_phrase by assumption.
  cbn [beatsRemaining timeRemainingSeconds phraseCount].
  pose proof (beatDurationMs_pos bpm Hbpm) as Hd.
  set (c := PhraseCounter.currentProgressMs now progressMs timestamp isPlaying) in *.
  assert (Htb : (0 <= c / (60000 / bpm))%Q)
    by (apply Qle_shift_div_l; [exact Hd | lra]).
  destruct (rem_nonneg (c / (60000 / bpm)) 32) as [Hlo Hhi]; [lra | exact Htb |].
  set (p := JS.rem (c / (60000 / bpm)) 32) in *.
  destruct (floor_bounds p) as [Flo Fhi].
  assert (Hk0 : (0 <= JS.floor p)%Z).
  { unfold JS.floor. change 0%Z with (Qfloor 0). apply Qfloor_resp_le. exact Hlo. }
  assert (Hk1 : (JS.floor p < 32)%Z).
  { rewrite Zlt_Qlt. change (inject_Z 32) with 32%Q. lra. }
  split.
  { exists (JS.floor p + 1)%Z. split; [lia |].
    rewrite inject_Z_plus. change (inject_Z 1) with 1%Q.
    split; [reflexivity |]. split; lra. }
  split; [lra |]. split; [lra |].
  assert (Et : ((32 - p) * (60000 / bpm) / 1000 == (32 - p) * 60 / bpm)%Q)
    by (field; lra).
  rewrite Et.
  assert (Hi : (0 < / bpm)%Q) by (apply Qinv_lt_0_compat; exact Hbpm).
  unfold Qdiv. nra.
Qed.

Lemma calculate_ranges_witness :
  (0 < timeRemainingSeconds (PhraseCounter.calculate 5000 120 0 4000 None (Some true)))%Q.
Proof.
  assert (Hb : (0 < 120)%Q) by (vm_compute; reflexivity).
  assert (Hg : JS.truthy None && JS.strict_neq None 4 = false) by reflexivity.
  assert (Hp : (0 <= PhraseCounter.currentProgressMs 5000 0 4000 (Some true))%Q)
    by (vm_compute; discriminate).
  destruct (calculate_ranges 5000 120 0 4000 None (Some true) Hb Hg Hp)
    as (_ & _ & _ & H).
  exact H.
Defined.

(** ** The phrase rows of the board, for a result of [calculate] *)

(** X4.  When the phrase information given to the board is the result
    of [calculate] for the tempo and the time signature of the track,
    the board shows the four rows of the countdown, except for a
    positive tempo with a signature that is given, not 0 and not 4:
    then it shows the three rows of the notice.  The test
    [beatsRemaining > 0] of the board never mistakes one for the
    other. *)
Theorem phraseLines_of_calculate (env : Platform) (currentTrack : CurrentTrack.t)
    (now : Z) (bpm progressMs timestamp : Q) (isPlaying : option bool) :
  let ts := time_signature (CurrentTrack.audio_features currentTrack) in
  let info := PhraseCounter.calculate now bpm progressMs timestamp ts isPlaying in
  List.length (TerminalRenderer.phraseLines env currentTrack (Some info))
  = if negb (JS.leb bpm 0) && (JS.truthy ts && JS.strict_neq ts 4)
    then 3%nat else 4%nat.
Proof.
  intros ts info. unfold TerminalRenderer.phraseLines.
  destruct (JS.leb bpm 0) eqn:Ebpm.
  - unfold info, PhraseCounter.calculate. rewrite Ebpm.
    cbn [beatsRemaining negb andb].
    replace (JS.ltb 0 32) with true by reflexivity.
    destruct (buildScanlineBar env 32). reflexivity.
  - apply leb_false in Ebpm. cbn [negb andb].
    destruct (JS.truthy ts && JS.strict_neq ts 4) eqn:Eg.
    + unfold info, PhraseCounter.calculate.
      replace (JS.leb bpm 0) with false by (symmetry; apply leb_false; exact Ebpm).
      rewrite Eg. cbn [beatsRemaining].
      replace (JS.ltb 0 0) with false by reflexivity.
      fold ts. rewrite Eg. reflexivity.
    + unfold info. rewrite calculate_phrase by assumption.
      cbn [beatsRemaining].
      match goal with
      | |- context [JS.ltb 0 ?x] =>
          replace (JS.ltb 0 x) with true
            by (symmetry; apply ltb_true; apply beatsRemaining_pos)
      end.
      match goal with
      | |- context [buildScanlineBar env ?x] => destruct (buildScanlineBar env x)
      end.
      reflexivity.
Qed.

(** ** The ripple of the border *)

Lemma mod_wrap_up (x c : Z) : (- c <= x < 0)%Z -> (x mod c = x + c)%Z.
Proof.
  intro H. replace x with (x + c + (-1) * c)%Z at 1 by ring.
  rewrite Z_mod_plus_full. apply Z.mod_small. lia.
Qed.

Lemma mod_wrap_down (x c : Z) : (c <= x < 2 * c)%Z -> (x mod c = x - c)%Z.
Proof.
  intro H. replace x with (x - c + 1 * c)%Z at 1 by ring.
  rewrite Z_mod_plus_full. apply Z.mod_small. lia.
Qed.

(** The two branches of [isInRipple] are one test on the distance from
    the phase, counted around the cycle. *)
Lemma isInRipple_mod (row col : Z) (ripple : RippleState) :
  active ripple = true ->
  (0 <= band ripple < cycle ripple)%Z ->
  (0 <= phase ripple < cycle ripple)%Z ->
  (0 <= row + col)%Z ->
  isInRipple row col ripple
  = ((row + col - phase ripple) mod cycle ripple <=? band ripple)%Z.
Proof.
  intros Ha Hb Hp Hrc. unfold isInRipple. rewrite Ha. cbn [negb].
  destruct ripple as [a bd c ph]. cbn [band cycle phase] in *.
  rewrite !Z.rem_mod_nonneg by lia.
  rewrite <- (Zminus_mod_idemp_l (row + col) ph c).
  pose proof (Z.mod_pos_bound (row + col) c ltac:(lia)) as Hpos.
  set (p := ((row + col) mod c)%Z) in *.
  destruct (Z.lt_ge_cases (ph + bd) c) as [Hin | Hwrap].
  - rewrite (Z.mod_small (ph + bd) c) by lia.
    replace (ph <=? ph + bd)%Z with true by (symmetry; apply Z.leb_le; lia).
    destruct (Z.lt_ge_cases p ph) as [Hlt | Hge].
    + rewrite (mod_wrap_up (p - ph) c) by lia.
      destruct (Z.leb_spec ph p), (Z.leb_spec p (ph + bd)),
        (Z.leb_spec (p - ph + c) bd); cbn; lia.
    + rewrite (Z.mod_small (p - ph) c) by lia.
      destruct (Z.leb_spec ph p), (Z.leb_spec p (ph + bd)),
        (Z.leb_spec (p - ph) bd); cbn; lia.
  - rewrite (mod_wrap_down (ph + bd) c) by lia.
    replace (ph <=? ph + bd - c)%Z with false by (symmetry; apply Z.leb_gt; lia).
    destruct (Z.lt_ge_cases p ph) as [Hlt | Hge].
    + rewrite (mod_wrap_up (p - ph) c) by lia.
      destruct (Z.leb_spec ph p), (Z.leb_spec p (ph + bd - c)),
        (Z.leb_spec (p - ph + c) bd); cbn; lia.
    + rewrite (Z.mod_small (p - ph) c) by lia.
      destruct (Z.leb_spec ph p), (Z.leb_spec p (ph + bd - c)),
        (Z.leb_spec (p - ph) bd); cbn; lia.
Qed.

(** X5.  For an active ripple whose phase and band lie inside the cycle,
    the cell at (row, col) is in the ripple exactly when its diagonal
    [row + col] is at most [band] steps after the phase, counted around
    the cycle: the window wraps, and it holds [band + 1] diagonals. *)
Theorem isInRipple_window (row col : Z) (ripple : RippleState) :
  active ripple = true ->
  (0 <= band ripple < cycle ripple)%Z ->
  (0 <= phase ripple < cycle ripple)%Z ->
  (0 <= row + col)%Z ->
  (isInRipple row col ripple = true
   <-> ((row + col - phase ripple) mod cycle ripple <= band ripple)%Z)
  /\ isInRipple row (col + cycle ripple) ripple = isInRipple row col ripple.
Proof.
  intros Ha Hb Hp Hrc. split.
  - rewrite isInRipple_mod by assumption. apply Z.leb_le.
  - rewrite !isInRipple_mod by (try assumption; lia).
    replace (row + (col + cycle ripple) - phase ripple)%Z
      with (row + col - phase ripple + 1 * cycle ripple)%Z by ring.
    rewrite Z_mod_plus_full. reflexivity.
Qed.

Lemma isInRipple_window_witness :
  isInRipple 0 3 (mkRipple true 5 70 68) = true.
Proof.
  assert (Ha : active (mkRipple true 5 70 68) = true) by reflexivity.
  assert (Hb : (0 <= band (mkRipple true 5 70 68) < cycle (mkRipple true 5 70 68))%Z)
    by (cbn; lia).
  assert (Hp : (0 <= phase (mkRipple true 5 70 68) < cycle (mkRipple true 5 70 68))%Z)
    by (cbn; lia).
  assert (Hrc : (0 <= 0 + 3)%Z) by lia.
  destruct (isInRipple_window 0 3 (mkRipple true 5 70 68) Ha Hb Hp Hrc)
    as [[_ H] _].
  apply H. vm_compute. discriminate.
Defined.



(** ** The scanline bar *)

(** X7.  The distance around the ring does not depend on the order of
    the two cells; for two cells of the ring it lies between 0 and half
    the length of the ring, and it is 0 only for a cell and itself. *)
Theorem wrapDistance_ring (a b length : Z) :
  (0 <= a < length)%Z -> (0 <= b < length)%Z ->
  wrapDistance a b length = wrapDistance b a length
  /\ (0 <= wrapDistance a b length <= length / 2)%Z
  /\ (wrapDistance a b length = 0%Z <-> a = b).
Proof.
  intros Ha Hb. unfold wrapDistance.
  replace (Z.abs (b - a)) with (Z.abs (a - b)) by lia.
  split; [reflexivity |]. split; [| lia].
  split; [lia |]. apply Z.div_le_lower_bound; lia.
Qed.

Lemma wrapDistance_ring_witness : wrapDistance 1 31 32 = wrapDistance 31 1 32.
Proof.
  assert (Ha : (0 <= 1 < 32)%Z) by lia.
  assert (Hb : (0 <= 31 < 32)%Z) by lia.
  destruct (wrapDistance_ring 1 31 32 Ha Hb) as (H & _).
  exact H.
Defined.

(** X8.  The urgency tiers.  The pulse is frozen exactly in the last 8
    beats, and frozen is the same as a step of 0 ms; with fewer beats
    remaining the step is never longer; the pulse is always 5 cells
    wide. *)
Theorem getScanSettings_tiers (beats beats' : Q) :
  (freeze (getScanSettings beats) = true <-> (beats <= 8)%Q)
  /\ (freeze (getScanSettings beats) = true <-> speedMs (getScanSettings beats) = 0%Z)
  /\ ((beats <= beats')%Q ->
      (speedMs (getScanSettings beats) <= speedMs (getScanSettings beats'))%Z)
  /\ pulseWidth (getScanSettings beats) = 5%Z.
Proof.
  assert (Hs : forall x : Q,
             ((x <= 8)%Q /\ getScanSettings x
                            = mkScan 0 5 (RgbColor.mk 210 90 50) true (Some colors.red))
             \/ ((8 < x)%Q /\ (x <= 16)%Q
                 /\ getScanSettings x = mkScan 50 5 (RgbColor.mk 210 160 60) false None)
             \/ ((16 < x)%Q /\ (x <= 32)%Q
                 /\ getScanSettings x = mkScan 100 5 (RgbColor.mk 70 160 180) false None)
             \/ ((32 < x)%Q
                 /\ getScanSettings x = mkScan 250 5 (RgbColor.mk 40 110 130) false None)).
  { intro x. unfold getScanSettings.
    destruct (JS.leb x 8) eqn:E8; [apply leb_true in E8; left; split; [lra | reflexivity] |].
    apply leb_false in E8. right.
    destruct (JS.leb x 16) eqn:E16;
      [apply leb_true in E16; left; repeat split; try lra; reflexivity |].
    apply leb_false in E16. right.
    destruct (JS.leb x 32) eqn:E32;
      [apply leb_true in E32; left; repeat split; try lra; reflexivity |].
    apply leb_false in E32. right. split; [lra | reflexivity]. }
  destruct (Hs beats) as [[H1 E1] | [(H1 & H1' & E1) | [(H1 & H1' & E1) | [H1 E1]]]];
    rewrite E1; cbn [freeze speedMs pulseWidth];
    (split; [split; intro; (lra || discriminate || reflexivity) |]);
    (split; [split; intro; (lia || discriminate || reflexivity) |]);
    (split; [| reflexivity]); intro Hle;
    destruct (Hs beats') as [[H2 E2] | [(H2 & H2' & E2) | [(H2 & H2' & E2) | [H2 E2]]]];
    rewrite E2; cbn [speedMs]; lia || lra.
Qed.

(** X9.  On a ring of positive length, at a clock that is not negative,
    the centre of the pulse is a cell of the ring; when the pulse is
    frozen it is the middle cell. *)
Theorem getPulseCenter_cell (env : Platform) (length : Z) (scan : ScanSettings) :
  (0 < length)%Z -> (0 <= now env)%Z ->
  (0 <= getPulseCenter env length scan < length)%Z
  /\ (freeze scan = true -> getPulseCenter env length scan = (length / 2)%Z).
Proof.
  intros Hl Hnow. unfold getPulseCenter.
  assert (Hmid : (0 <= length / 2 < length)%Z).
  { split; [apply Z.div_pos; lia | apply Z.div_lt; lia]. }
  split.
  - destruct (freeze scan); cbn [orb]; [exact Hmid |].
    destruct (Z.leb_spec (speedMs scan) 0) as [Hs | Hs]; [exact Hmid |].
    apply Z.rem_bound_pos; [apply Z.div_pos; lia | exact Hl].
  - intros ->. reflexivity.
Qed.

Lemma getPulseCenter_cell_witness :
  (0 <= getPulseCenter (Sample.env 1000500) 32 (getScanSettings 20) < 32)%Z.
Proof.
  assert (Hl : (0 < 32)%Z) by lia.
  assert (Hn : (0 <= now (Sample.env 1000500))%Z) by (cbn; lia).
  destruct (getPulseCenter_cell (Sample.env 1000500) 32 (getScanSettings 20) Hl Hn)
    as (H & _).
  exact H.
Defined.

(** ** Centring a title *)

(** X10.  [center] never cuts the text.  A text at least as wide as the
    field is returned as it is; a narrower one gets spaces on both
    sides, as many in all as the field is wider than the visible text,
    with the odd space, if any, on the right. *)
Theorem center_padding (env : Platform) (text : string) (width : Z) :
  let visibleWidth := stringWidth env (stripAnsi env text) in
  ((width <= visibleWidth)%Z -> center env text width = text)
  /\ ((visibleWidth < width)%Z ->
      exists l r : nat,
        center env text width = JS.repeat " " l ++ text ++ JS.repeat " " r
        /\ (Z.of_nat l + Z.of_nat r = width - visibleWidth)%Z
        /\ (l <= r <= l + 1)%nat).
Proof.
  intro visibleWidth. unfold center. fold visibleWidth. split.
  - intro H. replace (width <=? visibleWidth)%Z with true
      by (symmetry; apply Z.leb_le; exact H).
    reflexivity.
  - intro H. replace (width <=? visibleWidth)%Z with false
      by (symmetry; apply Z.leb_gt; exact H).
    eexists. eexists. split; [reflexivity |].
    pose proof (Z.div_mod (width - visibleWidth) 2 ltac:(lia)) as Hd.
    pose proof (Z.mod_pos_bound (width - visibleWidth) 2 ltac:(lia)) as Hm.
    split; lia.
Qed.

Lemma center_padding_witness :
  exists l r : nat,
    center (Sample.env 0) "ab" 5 = JS.repeat " " l ++ "ab" ++ JS.repeat " " r
    /\ (Z.of_nat l + Z.of_nat r
        = 5 - stringWidth (Sample.env 0) (stripAnsi (Sample.env 0) "ab"))%Z
    /\ (l <= r <= l + 1)%nat.
Proof.
  destruct (center_padding (Sample.env 0) "ab" 5) as (_ & Hpad).
  apply Hpad. cbn. lia.
Defined.

(** ** writeFrame: one call, from any stored frame *)

Lemma differingRows_NoDup (A B : list string) : NoDup (differingRows A B).
Proof. unfold differingRows. apply NoDup_filter, seq_NoDup. Qed.

Lemma differingRows_length (A B : list string) :
  (List.length (differingRows A B) <= Nat.max (List.length A) (List.length B))%nat.
Proof.
  unfold differingRows.
  generalize (Nat.max (List.length A) (List.length B)). intro n.
  assert (H : forall l : list nat,
             (List.length
                (filter (fun i => negb (String.eqb (nth i A EmptyString)
                                                   (nth i B EmptyString))) l)
              <= List.length l)%nat).
  { induction l as [| x l IH]; cbn [filter List.length]; [lia |].
    destruct (negb _); cbn [List.length]; lia. }
  specialize (H (seq 0 n)). rewrite length_seq in H. exact H.
Qed.

Lemma append_cancel_l (a b c : string) : a ++ b = a ++ c -> b = c.
Proof.
  induction a as [| x a IH]; cbn [String.append]; intro H; [exact H |].
  injection H as H. apply IH, H.
Qed.

Lemma length_append (a b : string) :
  String.length (a ++ b) = (String.length a + String.length b)%nat.
Proof.
  induction a as [| x a IH]; cbn; [reflexivity | rewrite IH; reflexivity].
Qed.

Lemma append_cancel_r (a b c : string) : a ++ c = b ++ c -> a = b.
Proof.
  intro H.
  assert (Hl : String.length a = String.length b).
  { apply (f_equal String.length) in H. rewrite !length_append in H. lia. }
  revert b H Hl. induction a as [| x a IH]; intros [| y b] H Hl;
    cbn in Hl; try discriminate; [reflexivity |].
  cbn [String.append] in H. injection H as Hx H. subst y.
  f_equal. apply IH; [exact H | lia].
Qed.

(** A piece names its row and its text. *)
Lemma rowWrite_inj_text (i j : nat) (s t : string) :
  TerminalRenderer.rowWrite i s = TerminalRenderer.rowWrite j t -> i = j /\ s = t.
Proof.
  intro H. pose proof (rowWrite_inj i j s t H) as E. subst j.
  split; [reflexivity |].
  unfold TerminalRenderer.rowWrite in H.
  do 4 apply append_cancel_l in H. apply append_cancel_r in H. exact H.
Qed.

(** X11.  One call of [writeFrame], whatever frame is stored.  The
    buffer starts with the cursor reset and is written in one piece;
    after the reset it holds a piece for row [i] exactly when the row
    of the clipped frame differs from the stored row (rows that are
    missing count as empty), with the new text, one piece per row at
    most; so a stored row with text that lies below the new frame is
    cleared, and a row that did not change costs nothing. *)
Theorem writeFrame_diff (tty : Stdout) (lines : list string)
    (self : TerminalRenderer.t) :
  let clippedLines := firstn (TerminalRenderer.terminalHeight tty) lines in
  let previous := TerminalRenderer.previousFrame self in
  let out := snd (TerminalRenderer.writeFrame tty lines self) in
  (exists rows : list nat,
      buffer out
      = CURSOR_HOME
          :: map (fun i => TerminalRenderer.rowWrite i (nth i clippedLines EmptyString))
                 rows
      /\ NoDup rows
      /\ (List.length rows
          <= Nat.max (List.length clippedLines) (List.length previous))%nat)
  /\ written out = Some (JS.join (buffer out))
  /\ (forall (i : nat) (text : string),
        In (TerminalRenderer.rowWrite i text) (buffer out)
        <-> text = nth i clippedLines EmptyString
            /\ nth i clippedLines EmptyString <> nth i previous EmptyString)
  /\ (forall i : nat,
        (List.length clippedLines <= i)%nat ->
        nth i previous EmptyString <> EmptyString ->
        In (TerminalRenderer.rowWrite i EmptyString) (buffer out)).
Proof.
  intros clippedLines previous out.
  assert (Hin : forall (i : nat) (text : string),
             In (TerminalRenderer.rowWrite i text) (buffer out)
             <-> text = nth i clippedLines EmptyString
                 /\ nth i clippedLines EmptyString <> nth i previous EmptyString).
  { intros i text. unfold out. rewrite writeFrame_spec. cbn [snd buffer].
    fold clippedLines. fold previous. rewrite <- differingRows_In. split.
    - intros [Hhome | Hmap].
      + symmetry in Hhome. destruct (rowWrite_not_home i text Hhome).
      + apply in_map_iff in Hmap as (k & E & Hk).
        apply rowWrite_inj_text in E as [Ek Et]. subst k.
        split; [symmetry; exact Et | exact Hk].
    - intros [-> Hk]. right. apply in_map_iff. exists i.
      split; [reflexivity | exact Hk]. }
  split.
  { exists (differingRows clippedLines previous).
    split; [unfold out; rewrite writeFrame_spec; reflexivity |].
    split; [apply differingRows_NoDup | apply differingRows_length]. }
  split; [unfold out; rewrite writeFrame_spec; reflexivity |].
  split; [exact Hin |].
  intros i Hi Hp. apply Hin.
  rewrite (nth_overflow clippedLines EmptyString Hi).
  split; [reflexivity |]. intro E. apply Hp. symmetry. exact E.
Qed.

Lemma writeFrame_diff_witness :
  let tty := mkStdout (Some 80%nat) (Some 24%nat) in
  let stored := fst (TerminalRenderer.writeFrame tty ["a"; "b"; "c"] TerminalRenderer.create) in
  In (TerminalRenderer.rowWrite 2 EmptyString)
     (buffer (snd (TerminalRenderer.writeFrame tty ["a"; "b"] stored))).
Proof.
  intros tty stored.
  destruct (writeFrame_diff tty ["a"; "b"] stored) as (_ & _ & _ & H).
  apply H; vm_compute; [lia | discriminate].
Defined.

Lemma differingRows_nil (A : list string) :
  differingRows A []
  = filter (fun i => negb (String.eqb (nth i A EmptyString) EmptyString))
           (seq 0 (List.length A)).
Proof.
  unfold differingRows. cbn [List.length]. rewrite Nat.max_0_r.
  apply filter_ext. intro i. destruct i; reflexivity.
Qed.

(** X12.  After [resetFrameCache] (and on a new renderer) the next
    [writeFrame] writes every row of the clipped frame that is not
    empty, and only those: an empty row is compared with the empty
    cache and is not written, so it does not clear what the terminal
    shows there; the frame stored is the same as without the reset. *)
Theorem writeFrame_after_reset (tty : Stdout) (lines : list string)
    (self : TerminalRenderer.t) :
  let clippedLines := firstn (TerminalRenderer.terminalHeight tty) lines in
  let result :=
    TerminalRenderer.writeFrame tty lines (TerminalRenderer.resetFrameCache self) in
  buffer (snd result)
  = CURSOR_HOME
      :: map (fun i => TerminalRenderer.rowWrite i (nth i clippedLines EmptyString))
             (filter (fun i => negb (String.eqb (nth i clippedLines EmptyString)
                                                EmptyString))
                     (seq 0 (List.length clippedLines)))
  /\ (forall (i : nat) (text : string),
        In (TerminalRenderer.rowWrite i text) (buffer (snd result))
        <-> text = nth i clippedLines EmptyString /\ text <> EmptyString)
  /\ fst result = fst (TerminalRenderer.writeFrame tty lines self).
Proof.
  intros clippedLines result. unfold result. rewrite !writeFrame_spec.
  cbn [fst snd buffer TerminalRenderer.resetFrameCache TerminalRenderer.previousFrame].
  fold clippedLines. rewrite differingRows_nil.
  split; [reflexivity |]. split; [| reflexivity].
  intros i text. rewrite <- differingRows_nil. split.
  - intros [Hhome | Hmap].
    + symmetry in Hhome. destruct (rowWrite_not_home i text Hhome).
    + apply in_map_iff in Hmap as (k & E & Hk).
      apply rowWrite_inj_text in E as [Ek Et]. subst k.
      apply differingRows_In in Hk. split; [symmetry; exact Et |].
      rewrite <- Et. intro E0. apply Hk. rewrite E0. destruct i; reflexivity.
  - intros [-> Hne]. right. apply in_map_iff. exists i. split; [reflexivity |].
    apply differingRows_In. intro E. apply Hne. rewrite E. destruct i; reflexivity.
Qed.

(** X13.  [renderNarrowWarning] does not depend on the frame stored
    before it.  On a terminal of six rows or more it stores its six
    rows and writes the four that have text: rows 2, 3, 4 and 6. *)
Theorem renderNarrowWarning_frame (tty : Stdout) (width : Z)
    (self self' : TerminalRenderer.t) :
  TerminalRenderer.renderNarrowWarning tty width self
  = TerminalRenderer.renderNarrowWarning tty width self'
  /\ ((6 <= TerminalRenderer.terminalHeight tty)%nat ->
      let result := TerminalRenderer.renderNarrowWarning tty width self in
      List.length (TerminalRenderer.previousFrame (fst result)) = 6%nat
      /\ buffer (snd result)
         = [ CURSOR_HOME;
             TerminalRenderer.rowWrite 1
               (colors.yellow ++ "⚠️  Terminal too narrow!" ++ colors.reset);
             TerminalRenderer.rowWrite 2 "Minimum width: 80 characters";
             TerminalRenderer.rowWrite 3
               ("Current width: " ++ JS.show_Z width ++ " characters");
             TerminalRenderer.rowWrite 5 "Please resize your terminal window." ]).
Proof.
  split; [reflexivity |].
  intros Hh result. unfold result, TerminalRenderer.renderNarrowWarning.
  rewrite writeFrame_spec.
  cbn [fst snd buffer TerminalRenderer.resetFrameCache TerminalRenderer.previousFrame].
  rewrite firstn_all2 by (cbn [List.length]; lia).
  split; reflexivity.
Qed.

Lemma renderNarrowWarning_frame_witness :
  List.length
    (TerminalRenderer.previousFrame
       (fst (TerminalRenderer.renderNarrowWarning (mkStdout (Some 60%nat) (Some 24%nat))
               60 TerminalRenderer.create)))
  = 6%nat.
Proof.
  assert (H : (6 <= TerminalRenderer.terminalHeight
                      (mkStdout (Some 60%nat) (Some 24%nat)))%nat)
    by (vm_compute; lia).
  destruct (renderNarrowWarning_frame (mkStdout (Some 60%nat) (Some 24%nat)) 60
              TerminalRenderer.create TerminalRenderer.create) as (_ & Hr).
  destruct (Hr H) as (E & _). exact E.
Defined.

(** ** renderTrainBoard: the frame as a whole *)

(** The frame and the value returned, in closed form. *)
Lemma layoutTrainBoard_frame (env : Platform) (tty : Stdout)
    (currentTrack : option CurrentTrack.t)
    (recommendations : list MatchedTrack.t) (phraseInfo : option PhraseInfo)
    (showExitWarning : bool) (debugMessage : option string)
    (logs : list string) (selectedCategory : Category) (scrollOffset : Z)
    (showHelp : bool) (notices : list string) (totalTracksInLibrary : Z) :
  let h := Z.of_nat (TerminalRenderer.terminalHeight tty) in
  let tw := Z.of_nat (TerminalRenderer.terminalWidth tty) in
  let width := TerminalRenderer.effectiveWidth tw in
  let ripple :=
    buildRippleState env (width + 2) h
      (match currentTrack with Some _ => true | None => false end) in
  let top :=
    TerminalRenderer.topLines env width ripple currentTrack phraseInfo
      selectedCategory notices in
  let rows :=
    TerminalRenderer.displayLines env width currentTrack recommendations
      debugMessage selectedCategory totalTracksInLibrary in
  let window :=
    TerminalRenderer.availableForRecs h (Z.of_nat (List.length top))
      (TerminalRenderer.reservedLines showExitWarning showHelp width logs) in
  let m := Z.max 0 (Z.of_nat (List.length rows) - window) in
  let c := Z.min (Z.max scrollOffset 0) m in
  TerminalRenderer.layoutTrainBoard env tty currentTrack recommendations
    phraseInfo showExitWarning debugMessage logs selectedCategory scrollOffset
    showHelp notices totalTracksInLibrary
  = (TerminalRenderer.closingLines env tw h ripple showExitWarning showHelp
       (TerminalRenderer.helpLines showHelp width)
       (TerminalRenderer.logLines width logs)
       (top +++ firstn (Z.to_nat window) (skipn (Z.to_nat c) rows)),
     mkScroll c m).
Proof.
  intros h tw width ripple top rows window m c.
  assert (Hwin : (0 <= window)%Z).
  { unfold window, TerminalRenderer.availableForRecs. lia. }
  pose proof (clampScroll_spec scrollOffset (Z.of_nat (List.length rows)) window)
    as Hclamp.
  cbv zeta in Hclamp. fold m in Hclamp. fold c in Hclamp.
  pose proof (tooSmall_never rows scrollOffset window) as Hdead.
  cbv zeta in Hdead. rewrite Hclamp in Hdead. cbn [fst] in Hdead.
  unfold TerminalRenderer.layoutTrainBoard.
  fold h. fold tw. fold width. fold ripple. fold top. fold rows. fold window.
  rewrite Hclamp. cbv zeta.
  assert (Hslice : JS.slice rows c (c + window)
                   = firstn (Z.to_nat window) (skipn (Z.to_nat c) rows)).
  { apply slice_window; [unfold c, m; lia | exact Hwin]. }
  rewrite Hslice in *.
  destruct (window <? Z.of_nat (List.length rows))%Z; [reflexivity |].
  rewrite Hdead by reflexivity. reflexivity.
Qed.

Lemma length_buildStatusBar (env : Platform) (width : Z) (showWarning : bool)
    (ripple : RippleState) (rowIndex : Z) :
  Z.of_nat (List.length (buildStatusBar env width showWarning ripple rowIndex))
  = TerminalRenderer.statusLineCount showWarning.
Proof. unfold buildStatusBar. destruct showWarning; reflexivity. Qed.

Lemma length_logLines (width : Z) (logs : list string) :
  List.length (TerminalRenderer.logLines width logs)
  = match logs with [] => 0%nat | _ => (3 + List.length logs)%nat end.
Proof.
  unfold TerminalRenderer.logLines. destruct logs as [| x l]; [reflexivity |].
  cbn [List.length Nat.ltb Nat.leb]. cbn. rewrite length_map. reflexivity.
Qed.

(** The rows kept for the end of the frame are one more than the rows
    that the end of the frame pushes, blank rows apart. *)
Lemma reservedLines_pushed (showExitWarning showHelp : bool) (width : Z)
    (logs : list string) :
  TerminalRenderer.reservedLines showExitWarning showHelp width logs
  = (1 + Z.of_nat (List.length (TerminalRenderer.logLines width logs))
     + (if showHelp then 7 else 0)
     + TerminalRenderer.statusLineCount showExitWarning)%Z.
Proof.
  unfold TerminalRenderer.reservedLines. rewrite length_logLines.
  destruct logs as [| x l]; destruct showHelp;
    try change (List.length (TerminalRenderer.helpLines true width)) with 6%nat;
    [ change (0 <? List.length (@nil string))%nat with false
    | change (0 <? List.length (@nil string))%nat with false
    | change (0 <? List.length (x :: l))%nat with true
    | change (0 <? List.length (x :: l))%nat with true ];
    cbv beta iota zeta; cbn [List.length]; lia.
Qed.

(** The end of the frame: the rows so far, the logs, the help panel,
    blank rows, and the status bar, drawn at the row its ripple was
    computed for. *)
Lemma closingLines_shape (env : Platform) (tw h : Z) (ripple : RippleState)
    (showExitWarning showHelp : bool) (width : Z) (logs lines : list string) :
  let slc := TerminalRenderer.statusLineCount showExitWarning in
  let logLines := TerminalRenderer.logLines width logs in
  let content :=
    lines +++ logLines
      +++ (if showHelp then EmptyString :: buildHelpPanel width else []) in
  let body :=
    content
      +++ List.repeat EmptyString (Z.to_nat (h - slc - Z.of_nat (List.length content))) in
  TerminalRenderer.closingLines env tw h ripple showExitWarning showHelp
    (TerminalRenderer.helpLines showHelp width) logLines lines
  = body +++ buildStatusBar env tw showExitWarning ripple (Z.of_nat (List.length body))
  /\ Z.of_nat (List.length body)
     = Z.max (h - slc) (Z.of_nat (List.length content)).
Proof.
  intros slc logLines content body.
  assert (Hb : Z.of_nat (List.length body)
               = Z.max (h - slc) (Z.of_nat (List.length content))).
  { unfold body. rewrite length_app, repeat_length. lia. }
  split; [| exact Hb].
  rewrite Hb. unfold TerminalRenderer.closingLines, TerminalRenderer.padLines.
  fold slc.
  assert (Ec : (if showHelp
                then ((if (0 <? List.length logLines)%nat
                       then lines +++ logLines else lines) +++ [EmptyString])
                       +++ TerminalRenderer.helpLines showHelp width
                else (if (0 <? List.length logLines)%nat
                      then lines +++ logLines else lines))
               = content).
  { unfold content, TerminalRenderer.helpLines.
    destruct logLines as [| x l]; destruct showHelp;
      cbn [List.length Nat.ltb Nat.leb];
      rewrite <- ?app_assoc, ?app_nil_r; reflexivity. }
  cbv zeta. rewrite Ec. reflexivity.
Qed.

(** X14.  The frame that [renderTrainBoard] hands to [writeFrame] has at
    least as many rows as the terminal, so the frame stored afterwards
    has exactly as many.  When the rows left for the list are not
    negative (terminal height - 1 - top rows - reserved rows >= 0) the
    frame has exactly the height of the terminal: nothing is clipped,
    and the frame stored is the frame built. *)
Theorem renderTrainBoard_fills_terminal (env : Platform) (tty : Stdout)
    (currentTrack : option CurrentTrack.t)
    (recommendations : list MatchedTrack.t) (phraseInfo : option PhraseInfo)
    (showExitWarning : bool) (debugMessage : option string)
    (logs : list string) (selectedCategory : Category) (scrollOffset : Z)
    (showHelp : bool) (notices : list string) (totalTracksInLibrary : Z)
    (self : TerminalRenderer.t) :
  let h := TerminalRenderer.terminalHeight tty in
  let width :=
    TerminalRenderer.effectiveWidth (Z.of_nat (TerminalRenderer.terminalWidth tty)) in
  let ripple :=
    buildRippleState env (width + 2) (Z.of_nat h)
      (match currentTrack with Some _ => true | None => false end) in
  let top :=
    TerminalRenderer.topLines env width ripple currentTrack phraseInfo
      selectedCategory notices in
  let budget :=
    (Z.of_nat h - 1 - Z.of_nat (List.length top)
     - TerminalRenderer.reservedLines showExitWarning showHelp width logs)%Z in
  let frame :=
    fst (TerminalRenderer.layoutTrainBoard env tty currentTrack recommendations
           phraseInfo showExitWarning debugMessage logs selectedCategory
           scrollOffset showHelp notices totalTracksInLibrary) in
  let stored :=
    TerminalRenderer.previousFrame
      (fst (fst (TerminalRenderer.renderTrainBoard env tty currentTrack
                   recommendations phraseInfo showExitWarning debugMessage logs
                   selectedCategory scrollOffset showHelp notices
                   totalTracksInLibrary self))) in
  (h <= List.length frame)%nat
  /\ List.length stored = h
  /\ ((0 <= budget)%Z -> List.length frame = h /\ stored = frame).
Proof.
  intros h width ripple top budget frame stored.
  assert (Es : stored = firstn h frame).
  { unfold stored, frame. rewrite renderTrainBoard_layout. cbn [fst].
    rewrite writeFrame_spec. reflexivity. }
  assert (Hlen : exists content : Z,
             Z.of_nat (List.length frame)
             = (Z.max (Z.of_nat h - TerminalRenderer.statusLineCount showExitWarning)
                      content
                + TerminalRenderer.statusLineCount showExitWarning)%Z
             /\ ((0 <= budget)%Z ->
                 (content <= Z.of_nat h
                             - TerminalRenderer.statusLineCount showExitWarning)%Z)).
  { unfold frame. rewrite layoutTrainBoard_frame. cbn [fst].
    fold h. fold width. fold ripple. fold top.
    match goal with
    | |- context [TerminalRenderer.closingLines ?e ?tw ?hh ?rp ?w ?sh _ _ ?l] =>
        destruct (closingLines_shape e tw hh rp w sh width logs l) as [E Hb];
        cbv zeta in E, Hb; rewrite E; clear E
    end.
    rewrite length_app, Nat2Z.inj_add, length_buildStatusBar, Hb.
    eexists. split; [reflexivity |].
    intro Hbudget. rewrite !length_app, !Nat2Z.inj_add.
    rewrite length_firstn.
    assert (Ehelp : Z.of_nat (List.length
                                (if showHelp then EmptyString :: buildHelpPanel width
                                 else []))
                    = (if showHelp then 7 else 0)%Z)
      by (destruct showHelp; reflexivity).
    rewrite Ehelp.
    pose proof (reservedLines_pushed showExitWarning showHelp width logs) as Er.
    unfold TerminalRenderer.availableForRecs. fold budget.
    unfold budget in *. lia. }
  destruct Hlen as (content & Hlen & Hfit).
  assert (Hsl : (2 <= TerminalRenderer.statusLineCount showExitWarning <= 3)%Z)
    by (destruct showExitWarning; cbn; lia).
  assert (Hge : (h <= List.length frame)%nat) by lia.
  split; [exact Hge |]. split.
  - rewrite Es, length_firstn. lia.
  - intro Hbudget. specialize (Hfit Hbudget).
    assert (El : List.length frame = h) by lia.
    split; [exact El |]. rewrite Es. apply firstn_all2. lia.
Qed.

Lemma renderTrainBoard_fills_terminal_witness :
  List.length
    (fst (TerminalRenderer.layoutTrainBoard (Sample.env 1000500) Sample.tty
            (Some Sample.track) Sample.recommendations None false None []
            ALL 3 false ["Demo"] 10))
  = 30%nat.
Proof.
  destruct (renderTrainBoard_fills_terminal (Sample.env 1000500) Sample.tty
              (Some Sample.track) Sample.recommendations None false None []
              ALL 3 false ["Demo"] 10 TerminalRenderer.create) as (_ & _ & H).
  apply H. vm_compute. discriminate.
Defined.

(** X15.  The frame of [renderTrainBoard] ends with the status bar, two
    rows with the exit warning and three without, and the row index
    given to the ripple of the status bar is the index of the row where
    the bar starts.  When the rows left for the list are not negative,
    the bar starts at row [height - 2] or [height - 3]: it fills the
    last rows of the terminal. *)
Theorem renderTrainBoard_status_bar (env : Platform) (tty : Stdout)
    (currentTrack : option CurrentTrack.t)
    (recommendations : list MatchedTrack.t) (phraseInfo : option PhraseInfo)
    (showExitWarning : bool) (debugMessage : option string)
    (logs : list string) (selectedCategory : Category) (scrollOffset : Z)
    (showHelp : bool) (notices : list string) (totalTracksInLibrary : Z) :
  let h := Z.of_nat (TerminalRenderer.terminalHeight tty) in
  let tw := Z.of_nat (TerminalRenderer.terminalWidth tty) in
  let width := TerminalRenderer.effectiveWidth tw in
  let ripple :=
    buildRippleState env (width + 2) h
      (match currentTrack with Some _ => true | None => false end) in
  let top :=
    TerminalRenderer.topLines env width ripple currentTrack phraseInfo
      selectedCategory notices in
  let budget :=
    (h - 1 - Z.of_nat (List.length top)
     - TerminalRenderer.reservedLines showExitWarning showHelp width logs)%Z in
  let frame :=
    fst (TerminalRenderer.layoutTrainBoard env tty currentTrack recommendations
           phraseInfo showExitWarning debugMessage logs selectedCategory
           scrollOffset showHelp notices totalTracksInLibrary) in
  exists body : list string,
    frame
    = body +++ buildStatusBar env tw showExitWarning ripple
                 (Z.of_nat (List.length body))
    /\ List.length (buildStatusBar env tw showExitWarning ripple
                      (Z.of_nat (List.length body)))
       = (if showExitWarning then 2 else 3)%nat
    /\ ((0 <= budget)%Z ->
        Z.of_nat (List.length body)
        = (h - (if showExitWarning then 2 else 3))%Z).
Proof.
  intros h tw width ripple top budget frame.
  unfold frame. rewrite layoutTrainBoard_frame. cbn [fst].
  fold h. fold tw. fold width. fold ripple. fold top.
  match goal with
  | |- context [TerminalRenderer.closingLines ?e ?t ?hh ?rp ?w ?sh _ _ ?l] =>
      destruct (closingLines_shape e t hh rp w sh width logs l) as [E Hb];
      cbv zeta in E, Hb
  end.
  eexists. split; [exact E |].
  split; [destruct showExitWarning; reflexivity |].
  intro Hbudget. rewrite Hb.
  rewrite !length_app, !Nat2Z.inj_add, length_firstn.
  assert (Ehelp : Z.of_nat (List.length
                              (if showHelp then EmptyString :: buildHelpPanel width
                               else []))
                  = (if showHelp then 7 else 0)%Z)
    by (destruct showHelp; reflexivity).
  rewrite Ehelp.
  pose proof (reservedLines_pushed showExitWarning showHelp width logs) as Er.
  assert (Es : TerminalRenderer.statusLineCount showExitWarning
               = (if showExitWarning then 2 else 3)%Z) by reflexivity.
  unfold TerminalRenderer.availableForRecs. fold budget.
  unfold budget in *. destruct showExitWarning; lia.
Qed.

(** X16.  The offset returned is a fixed point: a second call with the
    offset and the other arguments of the first builds the same frame
    and returns the same value. *)
Theorem renderTrainBoard_offset_stable (env : Platform) (tty : Stdout)
    (currentTrack : option CurrentTrack.t)
    (recommendations : list MatchedTrack.t) (phraseInfo : option PhraseInfo)
    (showExitWarning : bool) (debugMessage : option string)
    (logs : list string) (selectedCategory : Category) (scrollOffset : Z)
    (showHelp : bool) (notices : list string) (totalTracksInLibrary : Z) :
  let layout :=
    TerminalRenderer.layoutTrainBoard env tty currentTrack recommendations
      phraseInfo showExitWarning debugMessage logs selectedCategory in
  let first := layout scrollOffset showHelp notices totalTracksInLibrary in
  layout (clampedOffset (snd first)) showHelp notices totalTracksInLibrary = first.
Proof.
  intros layout first. unfold first, layout.
  rewrite !layoutTrainBoard_frame. cbn [snd clampedOffset].
  match goal with
  | |- context [Z.max 0 (?t - ?w)] =>
      set (m := Z.max 0 (t - w));
      replace (Z.min (Z.max (Z.min (Z.max scrollOffset 0) m) 0) m)
        with (Z.min (Z.max scrollOffset 0) m) by (unfold m; lia)
  end.
  reflexivity.
Qed.

(** X17.  When no row is left for the list, the frame is the top of the
    board followed at once by the end of the frame: the list is not
    shown and no row stands in for it, and the offset returned is the
    offset given, cut to the number of rows of the list. *)
Theorem renderTrainBoard_no_room (env : Platform) (tty : Stdout)
    (currentTrack : option CurrentTrack.t)
    (recommendations : list MatchedTrack.t) (phraseInfo : option PhraseInfo)
    (showExitWarning : bool) (debugMessage : option string)
    (logs : list string) (selectedCategory : Category) (scrollOffset : Z)
    (showHelp : bool) (notices : list string) (totalTracksInLibrary : Z) :
  let h := Z.of_nat (TerminalRenderer.terminalHeight tty) in
  let tw := Z.of_nat (TerminalRenderer.terminalWidth tty) in
  let width := TerminalRenderer.effectiveWidth tw in
  let ripple :=
    buildRippleState env (width + 2) h
      (match currentTrack with Some _ => true | None => false end) in
  let top :=
    TerminalRenderer.topLines env width ripple currentTrack phraseInfo
      selectedCategory notices in
  let rows :=
    TerminalRenderer.displayLines env width currentTrack recommendations
      debugMessage selectedCategory totalTracksInLibrary in
  (h - 1 - Z.of_nat (List.length top)
   - TerminalRenderer.reservedLines showExitWarning showHelp width logs <= 0)%Z ->
  TerminalRenderer.layoutTrainBoard env tty currentTrack recommendations
    phraseInfo showExitWarning debugMessage logs selectedCategory scrollOffset
    showHelp notices totalTracksInLibrary
  = (TerminalRenderer.closingLines env tw h ripple showExitWarning showHelp
       (TerminalRenderer.helpLines showHelp width)
       (TerminalRenderer.logLines width logs) top,
     mkScroll (Z.min (Z.max scrollOffset 0) (Z.of_nat (List.length rows)))
              (Z.of_nat (List.length rows))).
Proof.
  intros h tw width ripple top rows Hroom.
  rewrite layoutTrainBoard_frame.
  fold h. fold tw. fold width. fold ripple. fold top. fold rows.
  assert (Ew : TerminalRenderer.availableForRecs h (Z.of_nat (List.length top))
                 (TerminalRenderer.reservedLines showExitWarning showHelp width logs)
               = 0%Z).
  { unfold TerminalRenderer.availableForRecs. lia. }
  rewrite Ew. cbn [Z.to_nat firstn]. rewrite app_nil_r.
  replace (Z.max 0 (Z.of_nat (List.length rows) - 0))
    with (Z.of_nat (List.length rows)) by lia.
  reflexivity.
Qed.

Lemma renderTrainBoard_no_room_witness :
  snd (TerminalRenderer.layoutTrainBoard (Sample.env 1000500)
         (mkStdout (Some 100%nat) (Some 10%nat))
         (Some Sample.track) Sample.recommendations None false None ["log"]
         ALL 50 true [] 10)
  = mkScroll 14 14.
Proof.
  rewrite (renderTrainBoard_no_room (Sample.env 1000500)
             (mkStdout (Some 100%nat) (Some 10%nat))
             (Some Sample.track) Sample.recommendations None false None ["log"]
             ALL 50 true [] 10)
    by (vm_compute; discriminate).
  reflexivity.
Defined.

Lemma renderTrainBoard_status_bar_witness :
  exists body : list string,
    fst (TerminalRenderer.layoutTrainBoard (Sample.env 1000500) Sample.tty
           (Some Sample.track) Sample.recommendations None false None []
           ALL 3 false ["Demo"] 10)
    = body +++ buildStatusBar (Sample.env 1000500) 100 false
                 (buildRippleState (Sample.env 1000500) 100 30 true) 27.
Proof.
  destruct (renderTrainBoard_status_bar (Sample.env 1000500) Sample.tty
              (Some Sample.track) Sample.recommendations None false None []
              ALL 3 false ["Demo"] 10) as (body & E & _ & Hrow).
  exists body. rewrite E. rewrite Hrow by (vm_compute; discriminate).
  reflexivity.
Defined.

(** ** renderTrainBoard: the rows of the list and of the top *)

(** Every recommendation has one of the four types. *)
Lemma count_by_type (recommendations : list MatchedTrack.t) :
  let n := fun t =>
    List.length
      (filter (fun r => ShiftType_eqb (MatchedTrack.shiftType r) t) recommendations) in
  List.length recommendations
  = (n SMOOTH + n MOOD_SWITCH + n ENERGY_UP + n RHYTHMIC_BREAKER)%nat.
Proof.
  cbv zeta. induction recommendations as [| r l IH]; [reflexivity |].
  cbn [filter List.length]. destruct (MatchedTrack.shiftType r);
    cbn [ShiftType_eqb List.length]; lia.
Qed.

Lemma displayLines_count_some (env : Platform) (width : Z)
    (currentTrack : option CurrentTrack.t) (recommendations : list MatchedTrack.t)
    (debugMessage : option string) (selectedCategory : Category)
    (totalTracksInLibrary : Z) :
  (List.length recommendations =? 0)%nat = false ->
  let n := fun t =>
    List.length
      (filter (fun r => ShiftType_eqb (MatchedTrack.shiftType r) t) recommendations) in
  List.length
    (TerminalRenderer.displayLines env width currentTrack recommendations
       debugMessage selectedCategory totalTracksInLibrary)
  = match selectedCategory with
    | ALL =>
        (List.length recommendations
         + List.length (filter (fun t => (0 <? n t)%nat) ShiftType_values))%nat
    | Only c => if (n c =? 0)%nat then 0%nat else (n c + 1)%nat
    end.
Proof.
  intros Hne n. unfold TerminalRenderer.displayLines. rewrite Hne.
  destruct selectedCategory as [| c].
  - unfold ShiftType_values, TerminalRenderer.grouped.
    cbn [flat_map filter]. fold (n SMOOTH) (n MOOD_SWITCH) (n ENERGY_UP)
      (n RHYTHMIC_BREAKER).
    rewrite (count_by_type recommendations). cbv zeta.
    fold (n SMOOTH) (n MOOD_SWITCH) (n ENERGY_UP) (n RHYTHMIC_BREAKER).
    rewrite !length_app.
    destruct (0 <? n SMOOTH)%nat eqn:E1; destruct (0 <? n MOOD_SWITCH)%nat eqn:E2;
      destruct (0 <? n ENERGY_UP)%nat eqn:E3;
      destruct (0 <? n RHYTHMIC_BREAKER)%nat eqn:E4;
      fold (n SMOOTH) (n MOOD_SWITCH) (n ENERGY_UP) (n RHYTHMIC_BREAKER);
      rewrite ?E1, ?E2, ?E3, ?E4; cbn [List.length]; rewrite ?length_map;
      fold (n SMOOTH) (n MOOD_SWITCH) (n ENERGY_UP) (n RHYTHMIC_BREAKER);
      apply Nat.ltb_ge in E1 || apply Nat.ltb_lt in E1;
      apply Nat.ltb_ge in E2 || apply Nat.ltb_lt in E2;
      apply Nat.ltb_ge in E3 || apply Nat.ltb_lt in E3;
      apply Nat.ltb_ge in E4 || apply Nat.ltb_lt in E4; lia.
  - unfold TerminalRenderer.grouped. cbn [flat_map].
    replace (ShiftType_eqb c c) with true by (destruct c; reflexivity).
    rewrite app_nil_r. fold (n c).
    destruct (n c) as [| k] eqn:Ek.
    + reflexivity.
    + cbn [Nat.ltb Nat.leb Nat.eqb List.length]. rewrite length_map.
      fold (n c). rewrite Ek. lia.
Qed.

(** X18.  The number of rows of the list of recommendations.  Without
    recommendations: the two rows of the empty library or the row of
    the missing matches, and one row more for a debug message that is
    not empty.  With recommendations, in the view of all categories:
    one row per recommendation and one header per category that has a
    recommendation, so every recommendation is listed once.  With a
    category selected: its recommendations and one header, or no row at
    all when the category has none (no message is shown then). *)
Theorem displayLines_count (env : Platform) (width : Z)
    (currentTrack : option CurrentTrack.t) (recommendations : list MatchedTrack.t)
    (debugMessage : option string) (selectedCategory : Category)
    (totalTracksInLibrary : Z) :
  let n := fun t =>
    List.length
      (filter (fun r => ShiftType_eqb (MatchedTrack.shiftType r) t) recommendations) in
  List.length
    (TerminalRenderer.displayLines env width currentTrack recommendations
       debugMessage selectedCategory totalTracksInLibrary)
  = match recommendations with
    | [] =>
        ((if (totalTracksInLibrary =? 0)%Z then 2 else 1)
         + match debugMessage with
           | Some d => if String.eqb d EmptyString then 0 else 1
           | None => 0
           end)%nat
    | _ :: _ =>
        match selectedCategory with
        | ALL =>
            (List.length recommendations
             + List.length (filter (fun t => (0 <? n t)%nat) ShiftType_values))%nat
        | Only c => if (n c =? 0)%nat then 0%nat else (n c + 1)%nat
        end
    end.
Proof.
  intro n. destruct recommendations as [| r0 l].
  - unfold TerminalRenderer.displayLines. cbn [List.length Nat.eqb].
    rewrite length_app.
    destruct (totalTracksInLibrary =? 0)%Z;
      destruct debugMessage as [d |]; try destruct (String.eqb d EmptyString);
      reflexivity.
  - apply displayLines_count_some. reflexivity.
Qed.

(** X19.  The number of rows above the list: five for the header, three
    for the title of the list, the tabs and the rule; the notices and a
    blank row when there are notices; one row while no track plays,
    else five rows for the track and its progress bar and none, three
    or four for the phrase. *)
Theorem topLines_count (env : Platform) (effectiveWidth : Z) (ripple : RippleState)
    (currentTrack : option CurrentTrack.t) (phraseInfo : option PhraseInfo)
    (selectedCategory : Category) (notices : list string) :
  List.length
    (TerminalRenderer.topLines env effectiveWidth ripple currentTrack phraseInfo
       selectedCategory notices)
  = (8
     + match notices with [] => 0 | _ :: _ => List.length notices + 1 end
     + match currentTrack with
       | None => 1
       | Some track => 5 + List.length (TerminalRenderer.phraseLines env track phraseInfo)
       end)%nat
  /\ (forall track : CurrentTrack.t,
        let k := List.length (TerminalRenderer.phraseLines env track phraseInfo) in
        k = 0%nat \/ k = 3%nat \/ k = 4%nat).
Proof.
  split.
  - unfold TerminalRenderer.topLines. rewrite !length_app.
    assert (Hh : List.length (TerminalRenderer.headerLines env effectiveWidth ripple)
                 = 5%nat) by reflexivity.
    assert (Ht : List.length (TerminalRenderer.tabsLines env effectiveWidth
                                currentTrack selectedCategory) = 3%nat) by reflexivity.
    assert (Hn : List.length (TerminalRenderer.noticeLines notices)
                 = match notices with [] => 0 | _ :: _ => List.length notices + 1 end%nat).
    { unfold TerminalRenderer.noticeLines. destruct notices as [| x l]; [reflexivity |].
      cbn [List.length Nat.ltb Nat.leb]. rewrite length_app, length_map.
      reflexivity. }
    assert (Hk : List.length (TerminalRenderer.trackLines env effectiveWidth
                                currentTrack phraseInfo)
                 = match currentTrack with
                   | None => 1
                   | Some track =>
                       5 + List.length (TerminalRenderer.phraseLines env track phraseInfo)
                   end%nat).
    { unfold TerminalRenderer.trackLines. destruct currentTrack; reflexivity. }
    rewrite Hh, Ht, Hn, Hk. lia.
  - intros track k. unfold k, TerminalRenderer.phraseLines.
    destruct phraseInfo as [info |]; [| left; reflexivity].
    destruct (JS.ltb 0 (beatsRemaining info)).
    + destruct (buildScanlineBar env (beatsRemaining info)). right. right. reflexivity.
    + destruct (JS.truthy _ && JS.strict_neq _ 4);
        [right; left; reflexivity | left; reflexivity].
Qed.

(** ** renderTrainBoard: widths and the progress bar in time *)

(** X20.  The usable width lies between 62 and 118 columns and is the
    width of the terminal less 2 from 64 to 120 columns; the progress
    bar is half of it, at least 40 cells: its width lies between 40 and
    59, and the upper limit of 60 written in the source is never
    reached. *)
Theorem board_widths (terminalWidth : Z) :
  let width := TerminalRenderer.effectiveWidth terminalWidth in
  (62 <= width <= 118)%Z
  /\ ((64 <= terminalWidth <= 120)%Z -> width = (terminalWidth - 2)%Z)
  /\ ((terminalWidth <= 64)%Z -> width = 62%Z)
  /\ ((120 <= terminalWidth)%Z -> width = 118%Z)
  /\ TerminalRenderer.barWidth width = Z.max 40 (width / 2)
  /\ (40 <= TerminalRenderer.barWidth width <= 59)%Z.
Proof.
  intro width. unfold width, TerminalRenderer.effectiveWidth, TerminalRenderer.barWidth.
  assert (H : (62 <= Z.max 62 (Z.min terminalWidth 120 - 2) <= 118)%Z) by lia.
  set (w := Z.max 62 (Z.min terminalWidth 120 - 2)) in *.
  assert (Hd : (31 <= w / 2 <= 59)%Z).
  { split; [apply Z.div_le_lower_bound; lia | apply Z.div_le_upper_bound; lia]. }
  repeat split; try lia; unfold w; lia.
Qed.

Lemma min_mono (a a' b : Q) : (a <= a')%Q -> (JS.min a b <= JS.min a' b)%Q.
Proof.
  intro H.
  destruct (min_cases a b) as [[H1 ->] | [H1 ->]];
    destruct (min_cases a' b) as [[H2 ->] | [H2 ->]]; lra.
Qed.

Lemma percentOf_mono (c c' d : Q) :
  (c <= c')%Q ->
  (TerminalRenderer.percentOf c d <= TerminalRenderer.percentOf c' d)%Q.
Proof.
  intro H. unfold TerminalRenderer.percentOf.
  destruct (JS.leb d 0) eqn:E; [lra |]. apply leb_false in E.
  assert (Hq : (c / d <= c' / d)%Q).
  { unfold Qdiv. apply Qmult_le_compat_r; [exact H |].
    apply Qlt_le_weak, Qinv_lt_0_compat, E. }
  revert Hq. generalize (c / d)%Q (c' / d)%Q. intros q q' Hq.
  destruct (max_cases 0 q) as [[H1 ->] | [H1 ->]];
    destruct (max_cases 0 q') as [[H2 ->] | [H2 ->]];
    repeat match goal with
           | |- context [JS.min 1 ?x] =>
               destruct (min_cases 1 x) as [[? ->] | [? ->]]
           end; lra.
Qed.

Lemma filledLen_range (barWidth : Z) (percent : Q) :
  (0 <= barWidth)%Z -> (0 <= TerminalRenderer.filledLen barWidth percent <= barWidth)%Z.
Proof.
  intro Hw. unfold TerminalRenderer.filledLen.
  destruct (JS.leb 1 percent); [lia |].
  destruct (JS.leb percent 0) eqn:E0; [lia |]. apply leb_false in E0.
  destruct (round_bounds (inject_Z barWidth * percent)) as [_ Hr].
  assert (Hb : (0 <= inject_Z barWidth)%Q).
  { change 0%Q with (inject_Z 0). rewrite <- Zle_Qle. exact Hw. }
  assert (Hdown : (-1 < JS.round (inject_Z barWidth * percent))%Z).
  { rewrite Zlt_Qlt. change (inject_Z (-1)) with (-1)%Q. nra. }
  lia.
Qed.

Lemma filledLen_mono (barWidth : Z) (p p' : Q) :
  (0 <= barWidth)%Z -> (p <= p')%Q ->
  (TerminalRenderer.filledLen barWidth p <= TerminalRenderer.filledLen barWidth p')%Z.
Proof.
  intros Hw Hp.
  pose proof (filledLen_range barWidth p Hw) as R.
  pose proof (filledLen_range barWidth p' Hw) as R'.
  unfold TerminalRenderer.filledLen in *.
  destruct (JS.leb 1 p') eqn:E1'; [lia |]. apply leb_false in E1'.
  replace (JS.leb 1 p) with false in * by (symmetry; apply leb_false; lra).
  destruct (JS.leb p 0) eqn:E0; [lia |]. apply leb_false in E0.
  replace (JS.leb p' 0) with false in * by (symmetry; apply leb_false; lra).
  assert (Hb : (0 <= inject_Z barWidth)%Q).
  { change 0%Q with (inject_Z 0). rewrite <- Zle_Qle. exact Hw. }
  assert (Hr : (JS.round (inject_Z barWidth * p) <= JS.round (inject_Z barWidth * p'))%Z).
  { unfold JS.round. apply Qfloor_resp_le. nra. }
  lia.
Qed.

(** X21.  While the data of the track stay the same, the progress bar
    never moves back as the clock advances; and once the position has
    reached a positive duration the bar is full. *)
Theorem progress_bar_advances (barWidth now now' : Z) (currentTrack : CurrentTrack.t) :
  (0 <= barWidth)%Z -> (now <= now')%Z ->
  let duration := CurrentTrack.duration_ms currentTrack in
  let filled := fun t : Z =>
    TerminalRenderer.filledLen barWidth
      (TerminalRenderer.percentOf (TerminalRenderer.currentMs t currentTrack) duration) in
  (filled now <= filled now')%Z
  /\ ((0 < duration)%Q ->
      (duration <= CurrentTrack.progress_ms currentTrack
                   + (if CurrentTrack.isPlaying currentTrack
                      then inject_Z now - CurrentTrack.timestamp currentTrack
                      else 0))%Q ->
      filled now = barWidth /\ filled now' = barWidth).
Proof.
  intros Hw Hnow duration filled.
  assert (Hq : (inject_Z now <= inject_Z now')%Q) by (rewrite <- Zle_Qle; exact Hnow).
  assert (Hc : (TerminalRenderer.currentMs now currentTrack
                <= TerminalRenderer.currentMs now' currentTrack)%Q).
  { unfold TerminalRenderer.currentMs. cbv zeta. apply min_mono.
    destruct (CurrentTrack.isPlaying currentTrack); lra. }
  assert (Hmono : (filled now <= filled now')%Z).
  { unfold filled. apply filledLen_mono; [exact Hw |].
    apply percentOf_mono. exact Hc. }
  split; [exact Hmono |].
  intros Hd Hend.
  assert (Efull : filled now = barWidth).
  { unfold filled, TerminalRenderer.filledLen.
    destruct (percentOf_range (TerminalRenderer.currentMs now currentTrack) duration)
      as (_ & _ & _ & Hpos).
    destruct (Hpos Hd) as (_ & Hone & _).
    assert (Hc1 : (1 <= TerminalRenderer.currentMs now currentTrack / duration)%Q).
    { apply Qle_shift_div_l; [exact Hd |].
      unfold TerminalRenderer.currentMs. cbv zeta. fold duration.
      match goal with
      | |- (_ <= JS.min ?a duration)%Q =>
          destruct (min_cases a duration) as [[H1 ->] | [H1 ->]]; lra
      end. }
    specialize (Hone Hc1).
    replace (JS.leb 1 (TerminalRenderer.percentOf
                         (TerminalRenderer.currentMs now currentTrack) duration))
      with true by (symmetry; apply leb_true; lra).
    reflexivity. }
  split; [exact Efull |].
  pose proof (filledLen_range barWidth
                (TerminalRenderer.percentOf
                   (TerminalRenderer.currentMs now' currentTrack) duration) Hw) as R.
  fold (filled now') in R. lia.
Qed.

Lemma progress_bar_advances_witness :
  (TerminalRenderer.filledLen 40
     (TerminalRenderer.percentOf (TerminalRenderer.currentMs 1000500 Sample.track)
        (CurrentTrack.duration_ms Sample.track))
   <= TerminalRenderer.filledLen 40
        (TerminalRenderer.percentOf (TerminalRenderer.currentMs 1090000 Sample.track)
           (CurrentTrack.duration_ms Sample.track)))%Z.
Proof.
  assert (Hw : (0 <= 40)%Z) by lia.
  assert (Hn : (1000500 <= 1090000)%Z) by lia.
  destruct (progress_bar_advances 40 1000500 1090000 Sample.track Hw Hn) as (H & _).
  exact H.
Defined.

(** ** ts_sandbox.ts: the arguments of the process *)

Lemma split_run (rest : string) :
  Sandbox.split "="%char ("--run=" ++ rest)
  = "--run" :: Sandbox.split "="%char rest.
Proof.
  cbn [String.append Sandbox.split Ascii.eqb Bool.eqb].
  destruct (Sandbox.split "="%char rest); reflexivity.
Qed.

Lemma split_not_nil (sep : ascii) (s : string) : Sandbox.split sep s <> [].
Proof.
  destruct s as [| a rest]; cbn [Sandbox.split]; [discriminate |].
  destruct (Ascii.eqb a sep); [discriminate |].
  destruct (Sandbox.split sep rest); discriminate.
Qed.

Lemma find_first {A : Type} (f : A -> bool) (pre post : list A) (x : A) :
  (forall y, In y pre -> f y = false) -> f x = true ->
  find f (pre +++ x :: post) = Some x.
Proof.
  intros Hpre Hx. induction pre as [| y pre IH]; cbn [app find].
  - rewrite Hx. reflexivity.
  - rewrite (Hpre y) by (left; reflexivity).
    apply IH. intros z Hz. apply Hpre. right. exact Hz.
Qed.

Lemma prefix_run (rest : string) : String.prefix "--run=" ("--run=" ++ rest) = true.
Proof.
  cbn. repeat (destruct (ascii_dec _ _); [| congruence]).
  destruct rest; reflexivity.
Qed.

(** X22.  [parseArgRun] looks at the first argument that starts with
    [--run=] and at no other: the arguments after it are ignored, also
    when it names no demo.  Of that argument only the text between the
    first and the second equals sign counts, so [--run=board=x] selects
    the board demo. *)
Theorem parseArgRun_first (pre post : list string) (rest : string) :
  (forall entry : string, In entry pre -> String.prefix "--run=" entry = false) ->
  let value := hd EmptyString (Sandbox.split "="%char rest) in
  Sandbox.parseArgRun (pre +++ ("--run=" ++ rest) :: post)
  = (if String.eqb value "board" then Some Sandbox.board
     else if String.eqb value "flip" then Some Sandbox.flip
     else None)
  /\ Sandbox.parseArgRun (pre +++ ("--run=" ++ rest) :: post)
     = Sandbox.parseArgRun ["--run=" ++ rest]
  /\ (forall junk : string,
        Sandbox.parseArgRun (pre +++ ("--run=board=" ++ junk) :: post)
        = Some Sandbox.board).
Proof.
  intros Hpre value.
  assert (E : forall (l r : list string) (t : string),
             (forall entry : string, In entry l -> String.prefix "--run=" entry = false) ->
             Sandbox.parseArgRun (l +++ ("--run=" ++ t) :: r)
             = (if String.eqb (hd EmptyString (Sandbox.split "="%char t)) "board"
                then Some Sandbox.board
                else if String.eqb (hd EmptyString (Sandbox.split "="%char t)) "flip"
                     then Some Sandbox.flip
                     else None)).
  { intros l r t Hl. unfold Sandbox.parseArgRun.
    rewrite (find_first (fun entry => String.prefix "--run=" entry) l r
               ("--run=" ++ t) Hl (prefix_run t)).
    rewrite split_run. cbn [nth_error].
    pose proof (split_not_nil "="%char t) as Hne.
    destruct (Sandbox.split "="%char t) as [| piece pieces]; [contradiction |].
    reflexivity. }
  split; [apply E; exact Hpre |]. split.
  - rewrite (E pre post rest Hpre).
    pose proof (E [] [] rest) as E0. cbn [app] in E0.
    rewrite E0 by (intros entry []). reflexivity.
  - intro junk.
    change ("--run=board=" ++ junk) with ("--run=" ++ ("board=" ++ junk)).
    rewrite (E pre post ("board=" ++ junk) Hpre).
    cbn [String.append Sandbox.split Ascii.eqb Bool.eqb].
    destruct (Sandbox.split "="%char junk); reflexivity.
Qed.

Lemma parseArgRun_first_witness :
  Sandbox.parseArgRun ["node"; "ts_sandbox.ts"; "--run=flip=x"; "--run=board"]
  = Some Sandbox.flip.
Proof.
  assert (Hpre : forall entry : string,
             In entry ["node"; "ts_sandbox.ts"] ->
             String.prefix "--run=" entry = false).
  { intros entry [<- | [<- | []]]; reflexivity. }
  destruct (parseArgRun_first ["node"; "ts_sandbox.ts"] ["--run=board"] "flip=x" Hpre)
    as (E & _).
  exact E.
Defined.

(** X23.  [--list] anywhere among the arguments wins over [--run=...]:
    [main] lists the shortcuts.  Without it, [main] runs a demo exactly
    when [parseArgRun] finds one, and opens the menu otherwise: without
    any argument that starts with [--run=], and also for an unknown
    name after [--run=]. *)
Theorem main_dispatch (argv : list string) :
  (In "--list" argv -> Sandbox.main argv = Sandbox.ListShortcuts)
  /\ (forall key : Sandbox.DemoKey,
        Sandbox.main argv = Sandbox.RunDemo key
        <-> ~ In "--list" argv /\ Sandbox.parseArgRun argv = Some key)
  /\ (Sandbox.main argv = Sandbox.InteractiveMenu
      <-> ~ In "--list" argv /\ Sandbox.parseArgRun argv = None)
  /\ ((forall entry : string, In entry argv -> String.prefix "--run=" entry = false) ->
      Sandbox.parseArgRun argv = None).
Proof.
  assert (Hl : existsb (String.eqb "--list") argv = true <-> In "--list" argv).
  { rewrite existsb_exists. split.
    - intros (x & Hx & E). apply String.eqb_eq in E. subst x. exact Hx.
    - intro H. exists "--list". split; [exact H | apply String.eqb_refl]. }
  unfold Sandbox.main.
  destruct (existsb (String.eqb "--list") argv) eqn:El.
  - assert (Hin : In "--list" argv) by (apply Hl; reflexivity).
    split; [intros _; reflexivity |]. split; [| split].
    + intro key. split; [discriminate | intros [Hn _]; contradiction].
    + split; [discriminate | intros [Hn _]; contradiction].
    + intro Hnone. unfold Sandbox.parseArgRun.
      destruct (find _ argv) as [arg |] eqn:Ef; [| reflexivity].
      apply find_some in Ef as [Hi Hp]. rewrite (Hnone arg Hi) in Hp. discriminate.
  - assert (Hnin : ~ In "--list" argv).
    { intro H. apply Hl in H. congruence. }
    split; [intro H; contradiction |]. split; [| split].
    + intro key. destruct (Sandbox.parseArgRun argv) as [k |]; split.
      * intro E. injection E as <-. split; [exact Hnin | reflexivity].
      * intros [_ E]. injection E as <-. reflexivity.
      * discriminate.
      * intros [_ E]. discriminate.
    + destruct (Sandbox.parseArgRun argv) as [k |]; split.
      * discriminate.
      * intros [_ E]. discriminate.
      * intros _. split; [exact Hnin | reflexivity].
      * intros _. reflexivity.
    + intro Hnone. unfold Sandbox.parseArgRun.
      destruct (find _ argv) as [arg |] eqn:Ef; [| reflexivity].
      apply find_some in Ef as [Hi Hp]. rewrite (Hnone arg Hi) in Hp. discriminate.
Qed.

Lemma main_dispatch_witness :
  Sandbox.main ["node"; "ts_sandbox.ts"; "--run=board"; "--list"]
  = Sandbox.ListShortcuts.
Proof.
  destruct (main_dispatch ["node"; "ts_sandbox.ts"; "--run=board"; "--list"])
    as (H & _).
  apply H. cbn. tauto.
Defined.

Lemma getScanSettings_tiers_witness :
  (speedMs (getScanSettings 4) <= speedMs (getScanSettings 20))%Z.
Proof.
  destruct (getScanSettings_tiers 4 20) as (_ & _ & H & _).
  apply H. vm_compute. discriminate.
Defined.

Lemma board_widths_witness : TerminalRenderer.effectiveWidth 100 = 98%Z.
Proof.
  destruct (board_widths 100) as (_ & H & _).
  apply H. lia.
Defined.
